(** * RDSR summary: extraction, filtering, sorting and grouping

    A shallow embedding of [rdsr_summary.py]: the recursive extractor
    [extract_targeted_data], the loader [load_dicom_data], and the
    table operations of [DoseSummaryApp] ([apply_all_filters],
    [clear_all_filters], [sort_column], [show_summary_stats],
    [show_multiple_exposures_table]).

    Python values are modelled by the inductive [value]; a Python [dict]
    with string keys by [gmap string value]; exceptions by the [res]
    monad.  Calls into pandas, [re] and [float] that the program makes
    are gathered in the class [Library], so that the theorems about the
    program hold whatever those calls compute; a concrete instance is
    given for evaluation on examples. *)

From Stdlib Require Import ZArith QArith String Ascii List Lia Bool.
From stdpp Require Import gmap strings list fin_maps pretty.

Open Scope string_scope.

(* ===================================================================== *)
(** ** Exceptions *)
(* ===================================================================== *)

Inductive exn :=
| IndexError
| KeyError
| TypeError
| ValueError
| ReError
| TclError
| InvalidDicomError.

Inductive res (A : Type) :=
| Ok (a : A)
| Raise (e : exn).
Arguments Ok {A} a.
Arguments Raise {A} e.

Definition bind {A B} (m : res A) (k : A -> res B) : res B :=
  match m with
  | Ok a => k a
  | Raise e => Raise e
  end.

Notation "x <-! m ; k" := (bind m (fun x => k))
  (at level 100, m at next level, right associativity).

Definition is_Ok {A} (m : res A) : Prop := exists a, m = Ok a.

Definition succeeds {A} (m : res A) : bool :=
  match m with
  | Ok _ => true
  | Raise _ => false
  end.

(** The value returned, or [d] when an exception was raised. *)
Definition value_or {A} (d : A) (m : res A) : A :=
  match m with
  | Ok a => a
  | Raise _ => d
  end.

(* ===================================================================== *)
(** ** Concept dictionary *)
(* ===================================================================== *)

(** The set literal [target_concepts], in the order it is written. *)
Definition target_concepts : list string :=
  [ "SOPInstanceUID"; "ContentDate"; "ContentTime"; "StationName";
    "PatientName"; "PatientID"; "PatientBirthDate"; "PatientSex";
    "SoftwareVersions"; "StudyInstanceUID"; "SeriesInstanceUID";
    "SeriesNumber"; "Person Observer Name"; "Start of X-Ray Irradiation";
    "End of X-Ray Irradiation"; "Total Number of Irradiation Events";
    "CT Dose Length Product Total"; "Acquisition Protocol";
    "Irradiation Event UID"; "Exposure Time"; "Scanning Length";
    "Nominal Single Collimation Width"; "Nominal Total Collimation Width";
    "Identification of the X-Ray Source"; "KVP";
    "Maximum X-Ray Tube Current"; "X-Ray Tube Current";
    "Exposure Time per Rotation"; "Mean CTDIvol"; "DLP" ].

(** The list [column_order] of [load_dicom_data]. *)
Definition column_order : list string :=
  [ "SOPInstanceUID"; "ContentDate"; "ContentTime"; "StationName";
    "PatientName"; "PatientID"; "PatientBirthDate"; "PatientSex";
    "SoftwareVersions"; "StudyInstanceUID"; "SeriesInstanceUID";
    "SeriesNumber"; "Person Observer Name"; "Start of X-Ray Irradiation";
    "End of X-Ray Irradiation"; "Total Number of Irradiation Events";
    "CT Dose Length Product Total"; "Acquisition Protocol";
    "Irradiation Event UID"; "Exposure Time"; "Scanning Length";
    "Nominal Single Collimation Width"; "Nominal Total Collimation Width";
    "Identification of the X-Ray Source"; "KVP";
    "Maximum X-Ray Tube Current"; "X-Ray Tube Current";
    "Exposure Time per Rotation"; "Mean CTDIvol"; "DLP" ].

(** [name in l] for a list of strings. *)
Definition mem (name : string) (l : list string) : bool :=
  existsb (String.eqb name) l.

(* ===================================================================== *)
(** ** Values, content items and datasets *)
(* ===================================================================== *)

(** A pandas [Timestamp]: [ts_day] names the calendar day by a number
    that grows with the date, [ts_time] is the time within the day. *)
Record Timestamp := { ts_day : Z; ts_time : Z }.

(** A Python [float]: a finite number (taken exactly), an infinity or
    NaN. *)
Inductive pyfloat :=
| Finite (q : Q)
| PInf
| NInf
| Nan.

(** What a dictionary entry or a table cell can hold. *)
Inductive value :=
| VNone                        (* None *)
| VFloat (f : pyfloat)         (* a number; [VFloat Nan] is NaN *)
| VStr (s : string)            (* str, UID, DT, PersonName *)
| VTimestamp (t : Timestamp)   (* a parsed date *)
| VNaT                         (* the missing date *)
| VInt (z : Z).                (* an int *)

(** [pd.isna] on one cell. *)
Definition isna (v : value) : bool :=
  match v with
  | VNone | VFloat Nan | VNaT => true
  | _ => false
  end.

Abbreviation dict := (gmap string value).

(** An item of a ConceptNameCodeSequence. *)
Record CodeItem := { CodeMeaning : option string }.

(** An item of a MeasuredValueSequence. *)
Record MeasuredItem := { NumericValue : option Q }.

(** A content item: each field is [None] when the element is not in the
    item. *)
#[warnings="-register-all"]
Inductive ContentItem :=
| MkItem (ConceptNameCodeSequence : option (list CodeItem))
         (MeasuredValueSequence : option (list MeasuredItem))
         (TextValue DateTime UID PersonName : option string)
         (ContentSequence : option (list ContentItem)).

(** Induction over a content tree: a property holds of every item when
    it holds of an item as soon as it holds of the items nested in it. *)
Section ContentItem_induction.

Variable P : ContentItem -> Prop.

Hypothesis step :
  forall cns mvs tv dt uid pn cs,
    match cs with
    | Some seq => Forall P seq
    | None => True
    end ->
    P (MkItem cns mvs tv dt uid pn cs).

Fixpoint ContentItem_nested_ind (item : ContentItem) : P item :=
  match item with
  | MkItem cns mvs tv dt uid pn cs =>
    step cns mvs tv dt uid pn cs
      (match cs as c
             return match c with
                    | Some seq => Forall P seq
                    | None => True
                    end
       with
       | Some seq =>
         (fix all (l : list ContentItem) : Forall P l :=
            match l with
            | [] => @List.Forall_nil _ P
            | x :: rest =>
              @List.Forall_cons _ P x rest (ContentItem_nested_ind x) (all rest)
            end) seq
       | None => I
       end)
  end.

End ContentItem_induction.

(** A document: [ds_attrs] maps each keyword of [ds.dir()] to
    [str(ds.data_element(tag).value)], or to [None] when reading the
    value raises. *)
Record Dataset := {
  ds_attrs : gmap string (option string);
  ds_ContentSequence : option (list ContentItem)
}.

(* ===================================================================== *)
(** ** [extract_targeted_data] *)
(* ===================================================================== *)

(** The concept name of an item.  Without the element,
    [item.get((0x0040, 0xA043), [])] is the default [[]], which is
    false, and there is no name.  With it, [get] by tag returns the
    data element, which is true whatever it holds, so
    [concept_name_seq[0]] is evaluated: it raises IndexError on an empty
    sequence and otherwise gives the item whose
    [.get("CodeMeaning", None)] is the name. *)
Definition concept_name_of (cns : option (list CodeItem))
    : res (option string) :=
  match cns with
  | None => Ok None
  | Some [] => Raise IndexError
  | Some (c :: _) => Ok (CodeMeaning c)
  end.

(** [concept_name and concept_name in target_concepts]. *)
Definition is_target (concept_name : option string) : bool :=
  match concept_name with
  | Some cn => negb (String.eqb cn "") && mem cn target_concepts
  | None => false
  end.

Definition of_numeric (n : option Q) : value :=
  match n with
  | Some q => VFloat (Finite q)
  | None => VNone
  end.

(** The [if/elif] chain over the value representations of one item:
    [Ok (Some v)] when [v] is to be stored, [Ok None] when no branch
    applies, [Raise IndexError] for [MeasuredValueSequence[0]] on an
    empty sequence. *)
Definition read_value (mvs : option (list MeasuredItem))
    (tv dt uid pn : option string) : res (option value) :=
  match mvs with
  | Some [] => Raise IndexError
  | Some (measured :: _) => Ok (Some (of_numeric (NumericValue measured)))
  | None =>
    match tv with
    | Some s => Ok (Some (VStr s))
    | None =>
      match dt with
      | Some s => Ok (Some (VStr s))
      | None =>
        match uid with
        | Some s => Ok (Some (VStr s))
        | None =>
          match pn with
          | Some s => Ok (Some (VStr s))
          | None => Ok None
          end
        end
      end
    end
  end.

(** The part of the loop body before the recursion. *)
Definition visit (cns : option (list CodeItem))
    (mvs : option (list MeasuredItem)) (tv dt uid pn : option string)
    (data : dict) : res dict :=
  concept_name <-! concept_name_of cns;
  if is_target concept_name then
    v <-! read_value mvs tv dt uid pn;
    match v with
    | Some x => Ok (<[default "" concept_name := x]> data)
    | None => Ok data
    end
  else Ok data.

(** One iteration of the [for item in sequence] loop. *)
Fixpoint parse_item (item : ContentItem) (data : dict) {struct item}
    : res dict :=
  match item with
  | MkItem cns mvs tv dt uid pn cs =>
    data1 <-! visit cns mvs tv dt uid pn data;
    match cs with
    | Some seq =>
      (fix loop (l : list ContentItem) (d : dict) {struct l} : res dict :=
         match l with
         | [] => Ok d
         | it :: rest => d' <-! parse_item it d; loop rest d'
         end) seq data1
    | None => Ok data1
    end
  end.

Fixpoint parse_sequence (sequence : list ContentItem) (data : dict)
    : res dict :=
  match sequence with
  | [] => Ok data
  | item :: rest => data' <-! parse_item item data; parse_sequence rest data'
  end.

(** What the loop body does after the item itself: the nested
    [ContentSequence], when there is one. *)
Definition descend (cs : option (list ContentItem)) (data : dict) : res dict :=
  match cs with
  | Some seq => parse_sequence seq data
  | None => Ok data
  end.

(** No [ConceptNameCodeSequence] and no [MeasuredValueSequence] of the
    tree is empty. *)
Fixpoint measured_ok (item : ContentItem) : bool :=
  match item with
  | MkItem cns mvs _ _ _ _ cs =>
    match cns with
    | Some [] => false
    | _ => true
    end
    && match mvs with
       | Some [] => false
       | _ => true
       end
    && match cs with
       | Some seq => forallb measured_ok seq
       | None => true
       end
  end.

(** The loop over [target_concepts] on the top-level attributes. *)
Definition top_level_step (ds : Dataset) (data : dict) (tag : string) : dict :=
  match ds_attrs ds !! tag with
  | Some (Some s) => <[tag := VStr s]> data
  | Some None => data
  | None => data
  end.

Definition top_level (ds : Dataset) (data : dict) : dict :=
  fold_left (top_level_step ds) target_concepts data.

Definition extract_targeted_data (ds : Dataset) : res dict :=
  data <-! match ds_ContentSequence ds with
           | Some seq => parse_sequence seq ∅
           | None => Ok ∅
           end;
  Ok (top_level ds data).

(** Every key of a dictionary is a target concept. *)
Definition keys_in_targets (data : dict) : Prop :=
  forall k, is_Some (data !! k) -> mem k target_concepts = true.

(** The content tree of a document has no empty
    [ConceptNameCodeSequence] or [MeasuredValueSequence]. *)
Definition tree_ok (ds : Dataset) : bool :=
  match ds_ContentSequence ds with
  | Some seq => forallb measured_ok seq
  | None => true
  end.

(** A content tree with a container, a measurement that also carries a
    text, and an item outside the dictionary; and a document around
    it. *)
Definition kvp_item : ContentItem :=
  MkItem (Some [{| CodeMeaning := Some "KVP" |}])
         (Some [{| NumericValue := Some (120 # 1) |}])
         (Some "one hundred and twenty") None None None None.

Definition comment_item : ContentItem :=
  MkItem (Some [{| CodeMeaning := Some "Comment" |}])
         None (Some "free text") None None None None.

Definition sample_document : Dataset :=
  {| ds_attrs := <["PatientID" := Some "P1"]>
                   (<["ContentDate" := Some "20240101"]>
                      (<["Modality" := Some "SR"]> ∅));
     ds_ContentSequence :=
       Some [MkItem None None None None None None
                    (Some [kvp_item; comment_item])] |}.

(* ===================================================================== *)
(** ** [load_dicom_data] *)
(* ===================================================================== *)

(** A file met by [os.walk]: its name and what [pydicom.dcmread] gives. *)
Record File := { fname : string; dcmread : res Dataset }.

Record DataFrame := { columns : list string; rows : list dict }.

(** [pd.DataFrame()] *)
Definition empty_frame : DataFrame := {| columns := []; rows := [] |}.

(** [f.endswith(".dcm")] *)
Definition endswith (s suffix : string) : bool :=
  let n := String.length s in
  let k := String.length suffix in
  (k <=? n)%nat && String.eqb (substring (n - k) k s) suffix.

(** [if info:] — a dict is true when it is not empty. *)
Definition truthy (info : dict) : bool := negb (bool_decide (info = ∅)).

(** What [dcmread] and [extract_targeted_data] give for one file. *)
Definition extract_file (f : File) : res dict :=
  read_dicom <-! dcmread f; extract_targeted_data read_dicom.

(** The files the loop reads. *)
Definition dcm_files (files : list File) : list File :=
  List.filter (fun f => endswith (fname f) ".dcm") files.

Fixpoint collect (files : list File) (records : list dict)
    : res (list dict) :=
  match files with
  | [] => Ok records
  | f :: rest =>
    if endswith (fname f) ".dcm" then
      read_dicom <-! dcmread f;
      info <-! extract_targeted_data read_dicom;
      if truthy info then collect rest (records ++ [info])%list
      else collect rest records
    else collect rest records
  end.

(** [pd.DataFrame(records)]: a key a record lacks is a missing cell. The
    order of the columns of this intermediate frame is lost by the
    [reindex] that follows; they are listed here in key order. *)
Definition frame_of_records (records : list dict) : DataFrame :=
  {| columns := remove_dups (concat (map (fun r => map fst (map_to_list r)) records));
     rows := records |}.

(** The cell of a row under a column label; a label the row lacks gives
    the missing value NaN. *)
Definition cell (r : dict) (col : string) : value :=
  default (VFloat Nan) (r !! col).

Definition reindex_row (cols : list string) (r : dict) : dict :=
  list_to_map (map (fun c => (c, cell r c)) cols).

(** [df.reindex(columns=cols, fill_value=None)] *)
Definition reindex (cols : list string) (df : DataFrame) : DataFrame :=
  {| columns := cols; rows := map (reindex_row cols) (rows df) |}.

Definition load_dicom_data (files : list File) : res DataFrame :=
  records <-! collect files [];
  Ok (reindex column_order (frame_of_records records)).

(** A document with no content tree and none of the target attributes,
    and a file that holds it. *)
Definition empty_document : Dataset :=
  {| ds_attrs := ∅; ds_ContentSequence := None |}.

Definition empty_file : File :=
  {| fname := "empty.dcm"; dcmread := Ok empty_document |}.

(* ===================================================================== *)
(** ** Strings *)
(* ===================================================================== *)

(** The ASCII characters [str.strip()] removes. *)
Definition is_space (a : ascii) : bool :=
  let n := nat_of_ascii a in
  ((9 <=? n) && (n <=? 13) || (28 <=? n) && (n <=? 32))%nat.

Fixpoint lstrip (s : string) : string :=
  match s with
  | String a rest => if is_space a then lstrip rest else s
  | EmptyString => EmptyString
  end.

Fixpoint rstrip (s : string) : string :=
  match s with
  | String a rest =>
    match rstrip rest with
    | EmptyString => if is_space a then EmptyString else String a EmptyString
    | r => String a r
    end
  | EmptyString => EmptyString
  end.

Definition strip (s : string) : string := rstrip (lstrip s).

Definition lower_ascii (a : ascii) : ascii :=
  let n := nat_of_ascii a in
  if ((65 <=? n) && (n <=? 90))%nat then ascii_of_nat (n + 32) else a.

(** [str.lower()] on ASCII text. *)
Fixpoint lower (s : string) : string :=
  match s with
  | String a rest => String (lower_ascii a) (lower rest)
  | EmptyString => EmptyString
  end.

Definition digit_value (a : ascii) : option Z :=
  let n := nat_of_ascii a in
  if ((48 <=? n) && (n <=? 57))%nat then Some (Z.of_nat (n - 48)) else None.

(** The digits of an int literal: at least one digit, and an underscore
    only between two digits. *)
Fixpoint int_digits (acc : Z) (after_digit : bool) (s : string) : option Z :=
  match s with
  | EmptyString => if after_digit then Some acc else None
  | String a rest =>
    if Ascii.eqb a "_" then
      if after_digit then int_digits acc false rest else None
    else
      match digit_value a with
      | Some d => int_digits (acc * 10 + d)%Z true rest
      | None => None
      end
  end.

(** [int(s)] on ASCII text: [None] on ValueError. *)
Definition py_int (s : string) : option Z :=
  match strip s with
  | String "-" rest => option_map Z.opp (int_digits 0 false rest)
  | String "+" rest => int_digits 0 false rest
  | t => int_digits 0 false t
  end.

(** [a < b] on strings: code point order. *)
Definition str_ltb (a b : string) : bool :=
  match String.compare a b with
  | Lt => true
  | _ => false
  end.

(* ===================================================================== *)
(** ** Library calls *)
(* ===================================================================== *)

(** The functions of pandas, [re] and the Python built-ins that the
    program calls and whose results depend on text parsing.  The program
    is embedded over any implementation of them. *)
Class Library := {
  (** [pd.to_datetime(x, format="%Y%m%d", ...)] on one value: [None] when
      the value does not parse (NaT under [errors="coerce"], ValueError
      otherwise). *)
  to_datetime_ymd : value -> option Timestamp;
  (** [pd.to_datetime(s, errors="coerce")] on one string. *)
  to_datetime : string -> option Timestamp;
  (** [str(x)], as in [Series.astype(str)]. *)
  astype_str : value -> string;
  (** whether [re.compile(pat)] succeeds *)
  re_valid : string -> bool;
  (** [re.compile(pat, re.IGNORECASE).search(s) is not None] *)
  re_search : string -> string -> bool;
  (** [float(x)]: [None] on ValueError or TypeError *)
  float : value -> option pyfloat;
  (** [pd.to_numeric(x, errors="coerce")] on one value *)
  to_numeric : value -> pyfloat
}.

(* ===================================================================== *)
(** ** The application state and the filter pipeline *)
(* ===================================================================== *)

(** The attributes of [DoseSummaryApp] that the table operations read
    and write.  [tree] is the content of the Treeview: its columns and
    its items in display order, each cell being the text Tk keeps for
    the value that was inserted. *)
Record App := {
  data : DataFrame;
  filtered_data : DataFrame;
  active_filters : list (string * string);
  start_date_entry : string;
  end_date_entry : string;
  tree : DataFrame
}.

(** The state [__init__] sets up. *)
Definition init : App :=
  {| data := empty_frame; filtered_data := empty_frame;
     active_filters := []; start_date_entry := ""; end_date_entry := "";
     tree := empty_frame |}.

(** One value of [tree.item(i)["values"]]: ttk hands back the text of
    the cell, converted by [int] when [int] reads it. *)
Definition item_value (v : value) : value :=
  match v with
  | VStr s =>
    match py_int s with
    | Some z => VInt z
    | None => VStr s
    end
  | _ => v
  end.

(** [pd.DataFrame(rows, columns=columns)] for the [rows] read with
    [tree.item(i)["values"]] over the items of the Treeview [tv]. *)
Definition item_values (tv : DataFrame) : DataFrame :=
  {| columns := columns tv; rows := map (fmap item_value) (rows tv) |}.

(** [df[mask]]: the rows for which [keep] holds, in order. *)
Definition select (keep : dict -> bool) (df : DataFrame) : DataFrame :=
  {| columns := columns df; rows := List.filter keep (rows df) |}.

(** [df[col] = f(df[col])] for a column the frame must already have:
    [df[col]] raises KeyError otherwise. *)
Definition map_column (col : string) (f : value -> value) (df : DataFrame)
    : res DataFrame :=
  if mem col (columns df) then
    Ok {| columns := columns df;
          rows := map (fun r => <[col := f (cell r col)]> r) (rows df) |}
  else Raise KeyError.

Definition ts_leb (a b : Timestamp) : bool :=
  (ts_day a <? ts_day b)%Z
  || ((ts_day a =? ts_day b)%Z && (ts_time a <=? ts_time b)%Z).

(** [df["ContentDate"] >= start], row by row: a comparison with NaT is
    false. *)
Definition date_ge (start : Timestamp) (r : dict) : bool :=
  match cell r "ContentDate" with
  | VTimestamp t => ts_leb start t
  | _ => false
  end.

(** [df["ContentDate"] <= end] *)
Definition date_le (end_ : Timestamp) (r : dict) : bool :=
  match cell r "ContentDate" with
  | VTimestamp t => ts_leb t end_
  | _ => false
  end.

Definition start_error : string := "Invalid start date format. Use YYYYMMDD.".
Definition end_error : string := "Invalid end date format. Use YYYYMMDD.".

Section Program.

Context `{Lib : Library}.

(** One cell under [pd.to_datetime(..., format="%Y%m%d", errors="coerce")]. *)
Definition coerce_datetime (v : value) : value :=
  match to_datetime_ymd v with
  | Some t => VTimestamp t
  | None => VNaT
  end.

(** One date bound: nothing when the entry is empty; the rows within the
    bound when the entry parses; otherwise the frame as it is and the
    text of the error box. *)
Definition date_bound (entry : string) (within : Timestamp -> dict -> bool)
    (error : string) (df : DataFrame) : DataFrame * list string :=
  if String.eqb entry "" then (df, [])
  else
    match to_datetime_ymd (VStr entry) with
    | Some bound => (select (within bound) df, [])
    | None => (df, [error])
    end.

(** [df[col].astype(str).str.contains(val, case=False, na=False)], row by
    row. *)
Definition contains (col val : string) (r : dict) : bool :=
  re_search val (astype_str (cell r col)).

(** A row passes every filter whose column the frame has. *)
Definition passes (cols : list string) (filters : list (string * string))
    (r : dict) : bool :=
  forallb (fun f => negb (mem (fst f) cols) || contains (fst f) (snd f) r)
          filters.

(** Every pattern that will be compiled compiles. *)
Definition patterns_ok (cols : list string) (filters : list (string * string))
    : bool :=
  forallb (fun f => negb (mem (fst f) cols) || re_valid (snd f)) filters.

(** A row with its ContentDate parsed. *)
Definition with_date (r : dict) : dict :=
  <["ContentDate" := coerce_datetime (cell r "ContentDate")]> r.

(** The loop over [self.active_filters]. *)
Fixpoint dynamic_filters (filters : list (string * string)) (df : DataFrame)
    : res DataFrame :=
  match filters with
  | [] => Ok df
  | (col, val) :: rest =>
    if mem col (columns df) then
      if re_valid val then dynamic_filters rest (select (contains col val) df)
      else Raise ReError
    else dynamic_filters rest df
  end.

(** The frame [apply_all_filters] computes from the full data, the two
    date entries and the active filters, with the error boxes shown. *)
Definition filtered_frame (base : DataFrame) (start_entry end_entry : string)
    (filters : list (string * string)) : res (DataFrame * list string) :=
  let df := base in
  let start_date := strip start_entry in
  let end_date := strip end_entry in
  df <-! map_column "ContentDate" coerce_datetime df;
  let '(df, m1) := date_bound start_date date_ge start_error df in
  let '(df, m2) := date_bound end_date date_le end_error df in
  df <-! dynamic_filters filters df;
  Ok (df, (m1 ++ m2)%list).

(** One cell as the Treeview holds it: [tree.insert(..., values=list(row))]
    passes each value through [str]. *)
Definition rendered (v : value) : value := VStr (astype_str v).

Definition render_row (cols : list string) (r : dict) : dict :=
  list_to_map (map (fun c => (c, rendered (cell r c))) cols).

(** The content of the Treeview once [display_table(df)] has filled
    it. *)
Definition rendered_frame (df : DataFrame) : DataFrame :=
  {| columns := columns df;
     rows := map (render_row (columns df)) (rows df) |}.

(** [display_table]: the Treeview is emptied and filled with the rows
    of [df]. *)
Definition display_table (df : DataFrame) (app : App) : App :=
  {| data := data app; filtered_data := filtered_data app;
     active_filters := active_filters app;
     start_date_entry := start_date_entry app;
     end_date_entry := end_date_entry app;
     tree := rendered_frame df |}.

(** [apply_all_filters]: the state after the call, and either the error
    boxes shown or the exception that left the method. *)
Definition apply_all_filters (app : App) : App * res (list string) :=
  match filtered_frame (data app) (start_date_entry app)
          (end_date_entry app) (active_filters app) with
  | Ok (df, msgs) =>
    (display_table df
       {| data := data app; filtered_data := df;
          active_filters := active_filters app;
          start_date_entry := start_date_entry app;
          end_date_entry := end_date_entry app;
          tree := tree app |},
     Ok msgs)
  | Raise e => (app, Raise e)
  end.

Definition clear_all_filters (app : App) : App * res (list string) :=
  apply_all_filters
    {| data := data app; filtered_data := filtered_data app;
       active_filters := [];
       start_date_entry := ""; end_date_entry := "";
       tree := tree app |}.

(** [add_dynamic_filter], given the dropdown selection and the entry
    text. *)
Definition add_dynamic_filter (column entry : string) (app : App)
    : App * res (list string) :=
  let value := strip entry in
  if String.eqb column "" || String.eqb value "" then
    (app, Ok ["Select a column and enter a value."])
  else
    apply_all_filters
      {| data := data app; filtered_data := filtered_data app;
         active_filters := (active_filters app ++ [(column, value)])%list;
         start_date_entry := start_date_entry app;
         end_date_entry := end_date_entry app;
         tree := tree app |}.

(** [select_folder], given the files of the chosen folder. *)
Definition select_folder (files : list File) (app : App) : App * res unit :=
  match load_dicom_data files with
  | Ok df =>
    (display_table df
       {| data := df; filtered_data := df;
          active_filters := active_filters app;
          start_date_entry := start_date_entry app;
          end_date_entry := end_date_entry app;
          tree := tree app |},
     Ok tt)
  | Raise e => (app, Raise e)
  end.

End Program.

(* ===================================================================== *)
(** ** [sort_column] *)
(* ===================================================================== *)

(** [a < b] on floats: false as soon as one side is NaN. *)
Definition float_ltb (a b : pyfloat) : bool :=
  match a, b with
  | Nan, _ | _, Nan => false
  | Finite x, Finite y => negb (Qle_bool y x)
  | NInf, NInf => false
  | NInf, _ => true
  | _, NInf => false
  | PInf, _ => false
  | Finite _, PInf => true
  end.

Definition ts_ltb (a b : Timestamp) : bool :=
  (ts_day a <? ts_day b)%Z
  || ((ts_day a =? ts_day b)%Z && (ts_time a <? ts_time b)%Z).

(** Python's [a < b] between two sort keys: numbers compare with
    numbers and strings with strings; any other pairing has no order
    and raises TypeError. *)
Definition py_lt (a b : value) : res bool :=
  match a, b with
  | VFloat x, VFloat y => Ok (float_ltb x y)
  | VInt x, VInt y => Ok (x <? y)%Z
  | VInt x, VFloat y => Ok (float_ltb (Finite (inject_Z x)) y)
  | VFloat x, VInt y => Ok (float_ltb x (Finite (inject_Z y)))
  | VStr x, VStr y => Ok (str_ltb x y)
  | VTimestamp x, VTimestamp y => Ok (ts_ltb x y)
  | VTimestamp _, VNaT | VNaT, VTimestamp _ | VNaT, VNaT => Ok false
  | _, _ => Raise TypeError
  end.

(** The kind of a sort key: two keys have an order only when they are of
    the same kind, and [None] has none even with itself. *)
Definition key_class (v : value) : nat :=
  match v with
  | VNone => 0
  | VFloat _ | VInt _ => 1
  | VStr _ => 2
  | VTimestamp _ | VNaT => 3
  end.

Section Sorting.

Context {A : Type}.

(** [x] goes in front of the first element it is smaller than. *)
Fixpoint insert_sorted (x : value * A) (l : list (value * A))
    : res (list (value * A)) :=
  match l with
  | [] => Ok [x]
  | y :: rest =>
    b <-! py_lt (fst x) (fst y);
    if b then Ok (x :: y :: rest)
    else rest' <-! insert_sorted x rest; Ok (y :: rest')
  end.

Fixpoint sort_from (acc l : list (value * A)) : res (list (value * A)) :=
  match l with
  | [] => Ok acc
  | x :: rest => acc' <-! insert_sorted x acc; sort_from acc' rest
  end.

(** [list.sort(key=fst, reverse=reverse)]: a stable sort that only asks
    [<] of the keys and lets the exception of a comparison through; a
    reverse sort reverses the list, sorts it and reverses the result.
    The order is that of [list.sort] when [<] orders the keys; with NaN
    keys, which [<] does not order, the two may place the rows
    differently. *)
Definition list_sort (reverse : bool) (l : list (value * A))
    : res (list (value * A)) :=
  if reverse then
    sorted <-! sort_from [] (rev l); Ok (rev sorted)
  else sort_from [] l.

End Sorting.

Section Table.

Context `{Lib : Library}.

(** The local function [try_sort]. *)
Definition try_sort (val : value) : value :=
  match float val with
  | Some f => VFloat f
  | None =>
    match val with
    | VStr s => VStr (lower s)
    | _ => val
    end
  end.

(** [sort_column]: the Treeview after the call and the [reverse] the
    next click on the heading passes.  [tree.set] and [tree.heading]
    raise TclError for a column the Treeview does not have. *)
Definition sort_column (col : string) (reverse : bool) (tv : DataFrame)
    : res (DataFrame * bool) :=
  if mem col (columns tv) then
    let data := map (fun k => (cell k col, k)) (rows tv) in
    let keyed := map (fun t => (try_sort (fst t), snd t)) data in
    sorted <-! list_sort reverse keyed;
    Ok ({| columns := columns tv; rows := map snd sorted |}, negb reverse)
  else Raise TclError.

(* ===================================================================== *)
(** ** [show_summary_stats] *)
(* ===================================================================== *)

Definition excluded_variables : list string :=
  [ "Start of X-Ray Irradiation"; "End of X-Ray Irradiation"; "ContentTime";
    "SeriesNumber"; "ContentDate"; "PatientBirthDate" ].

(** One cell of the rebuilt frame: [float(val)] when it succeeds, else
    the value as it is. *)
Definition cleaned (val : value) : value :=
  match float val with
  | Some f => VFloat f
  | None => val
  end.

(** The column [col] after [pd.to_numeric(df[col], errors="coerce")]. *)
Definition numeric_column (tv : DataFrame) (col : string) : list pyfloat :=
  map (fun r => to_numeric (cleaned (cell r col))) (rows tv).

Definition notna (f : pyfloat) : bool :=
  match f with
  | Nan => false
  | _ => true
  end.

(** [df[col].notna().sum() > 0] *)
Definition has_numeric (tv : DataFrame) (col : string) : bool :=
  (0 <? length (List.filter notna (numeric_column tv col)))%nat.

Definition numeric_columns (tv : DataFrame) : list string :=
  List.filter (has_numeric tv) (columns tv).

(** A row of the statistics table: the variable, its [count], and the
    numbers over which [describe()] computes mean, median, min, max
    and std. *)
Record stat_row := {
  variable : string;
  count : nat;
  observations : list pyfloat
}.

Definition describe_column (tv : DataFrame) (col : string) : stat_row :=
  let xs := List.filter notna (numeric_column tv col) in
  {| variable := col; count := length xs; observations := xs |}.

Inductive stats_outcome :=
| StatsNoData                         (* "No filtered data to summarize." *)
| StatsNoNumeric                      (* "No numeric columns available ..." *)
| StatsRaise (e : exn)                (* describe() of a frame without columns *)
| StatsTable (stats : list stat_row). (* the popup *)

(** The variables of the popup, when there is one. *)
Definition stats_variables (o : stats_outcome) : list string :=
  match o with
  | StatsTable stats => map variable stats
  | _ => []
  end.

(** [show_summary_stats], from the values read from the Treeview: [tv]
    is [item_values (tree app)]. *)
Definition show_summary_stats (tv : DataFrame) : stats_outcome :=
  match rows tv with
  | [] => StatsNoData
  | _ =>
    match numeric_columns tv with
    | [] => StatsNoNumeric
    | numeric =>
      let kept := List.filter (fun c => negb (mem c excluded_variables)) numeric in
      match kept with
      | [] => StatsRaise ValueError
      | _ => StatsTable (map (describe_column tv) kept)
      end
    end
  end.

(* ===================================================================== *)
(** ** [show_multiple_exposures_table] *)
(* ===================================================================== *)

(** [Series.dt.normalize()] on one Timestamp. *)
Definition normalize (t : Timestamp) : Timestamp :=
  {| ts_day := ts_day t; ts_time := 0 |}.

(** One ContentDate cell through [astype(str).str.strip()],
    [pd.to_datetime(..., errors="coerce")] and [dt.normalize()]. *)
Definition parse_content_date (v : value) : value :=
  match to_datetime (strip (astype_str v)) with
  | Some t => VTimestamp (normalize t)
  | None => VNaT
  end.

(** [==] on group keys; an int and a float are equal when they are the
    same number. *)
Definition value_eqb (a b : value) : bool :=
  match a, b with
  | VNone, VNone => true
  | VFloat (Finite x), VFloat (Finite y) => Qeq_bool x y
  | VInt x, VInt y => Qeq_bool (inject_Z x) (inject_Z y)
  | VInt x, VFloat (Finite y) => Qeq_bool (inject_Z x) y
  | VFloat (Finite x), VInt y => Qeq_bool x (inject_Z y)
  | VFloat PInf, VFloat PInf => true
  | VFloat NInf, VFloat NInf => true
  | VStr x, VStr y => String.eqb x y
  | VTimestamp x, VTimestamp y =>
    (ts_day x =? ts_day y)%Z && (ts_time x =? ts_time y)%Z
  | _, _ => false
  end.

(** [df.dropna(subset=["PatientID", "ContentDate"])], row by row. *)
Definition complete (r : dict) : bool :=
  negb (isna (cell r "PatientID")) && negb (isna (cell r "ContentDate")).

(** The frame after the date is parsed and the incomplete rows are
    dropped. *)
Definition prepared (tv : DataFrame) : DataFrame :=
  select complete
    {| columns := columns tv;
       rows := map (fun r => <["ContentDate" :=
                                 parse_content_date (cell r "ContentDate")]> r)
                   (rows tv) |}.

Definition same_group (a b : dict) : bool :=
  value_eqb (cell a "PatientID") (cell b "PatientID")
  && value_eqb (cell a "ContentDate") (cell b "ContentDate").

(** The first row of each (PatientID, ContentDate) group. *)
Fixpoint group_heads (seen l : list dict) : list dict :=
  match l with
  | [] => []
  | r :: rest =>
    if existsb (same_group r) seen then group_heads seen rest
    else r :: group_heads (r :: seen) rest
  end.

Definition group_size (l : list dict) (r : dict) : nat :=
  length (List.filter (same_group r) l).

(** [df.groupby(["PatientID", "ContentDate"]).size()]: one entry per
    group, with its cardinality.  (pandas lists the groups by key; here
    they come in order of first appearance.) *)
Definition exposure_counts (df : DataFrame) : list (value * value * nat) :=
  map (fun r => (cell r "PatientID", cell r "ContentDate",
                 group_size (rows df) r))
      (group_heads [] (rows df)).

(** [exposure_counts[exposure_counts["ExposureCount"] >= 3]] *)
Definition multi_exposures (df : DataFrame) : list (value * value * nat) :=
  List.filter (fun e => (3 <=? snd e)%nat) (exposure_counts df).

(** [df.merge(multi_exposures, on=["PatientID", "ContentDate"])] with the
    count column dropped again: the rows of [df] whose key is one of
    [multi], in the order of [df]. *)
Definition merge (df : DataFrame) (multi : list (value * value * nat))
    : DataFrame :=
  select (fun r =>
            existsb (fun e =>
                       value_eqb (cell r "PatientID") (fst (fst e))
                       && value_eqb (cell r "ContentDate") (snd (fst e)))
                    multi)
         df.

Inductive exposures_outcome :=
| ExposuresNoData             (* "No data is currently displayed." *)
| ExposuresMissingColumns     (* "Required columns ... are not present." *)
| ExposuresNone               (* "No patients with >=3 exposures ..." *)
| ExposuresShown (latest_multi_exposures_df : DataFrame)
                 (groups : list (value * value * nat)).

(** The rows of the summary, when there is one. *)
Definition shown_rows (o : exposures_outcome) : list dict :=
  match o with
  | ExposuresShown df _ => rows df
  | _ => []
  end.

(** [show_multiple_exposures_table], from the values read from the
    Treeview: [tv] is [item_values (tree app)], the frame
    [pd.DataFrame(rows, columns=columns)]. *)
Definition show_multiple_exposures_table (tv : DataFrame)
    : exposures_outcome :=
  match rows tv with
  | [] => ExposuresNoData
  | _ =>
    if negb (mem "ContentDate" (columns tv))
       || negb (mem "PatientID" (columns tv))
    then ExposuresMissingColumns
    else
      let df := prepared tv in
      match multi_exposures df with
      | [] => ExposuresNone
      | multi => ExposuresShown (merge df multi) multi
      end
  end.

End Table.

(* ===================================================================== *)
(** ** A reference implementation of the library calls

    Used to run the program on examples.  It reads the common spellings
    only: dates as YYYYMMDD (and, without a format, YYYY-MM-DD with an
    optional HH:MM:SS), numbers as signed decimals, [nan] and [inf], and
    patterns without regular-expression operators. *)
(* ===================================================================== *)

Module Reference.

Definition digit (a : ascii) : option Z :=
  let n := nat_of_ascii a in
  if ((48 <=? n) && (n <=? 57))%nat then Some (Z.of_nat (n - 48)) else None.

Fixpoint digits_from (acc : Z) (s : string) : option Z :=
  match s with
  | EmptyString => Some acc
  | String a rest =>
    match digit a with
    | Some d => digits_from (acc * 10 + d)%Z rest
    | None => None
    end
  end.

(** A non-empty run of digits. *)
Definition number (s : string) : option Z :=
  if String.eqb s "" then None else digits_from 0%Z s.

Definition leap (y : Z) : bool :=
  ((y mod 4 =? 0) && (negb (y mod 100 =? 0) || (y mod 400 =? 0)))%Z.

Definition days_in_month (y m : Z) : Z :=
  if (m =? 2)%Z then (if leap y then 29 else 28)%Z
  else if ((m =? 4) || (m =? 6) || (m =? 9) || (m =? 11))%Z then 30%Z
  else 31%Z.

(** The day number of a date of the calendar, within the years a
    Timestamp can hold. *)
Definition civil (y m d : Z) : option Z :=
  if ((1678 <=? y) && (y <=? 2261) && (1 <=? m) && (m <=? 12)
      && (1 <=? d) && (d <=? days_in_month y m))%Z
  then Some (y * 10000 + m * 100 + d)%Z
  else None.

Definition date_of (ys ms ds : string) : option Z :=
  match number ys, number ms, number ds with
  | Some y, Some m, Some d => civil y m d
  | _, _, _ => None
  end.

Definition parse_ymd (s : string) : option Timestamp :=
  if (String.length s =? 8)%nat then
    match date_of (substring 0 4 s) (substring 4 2 s) (substring 6 2 s) with
    | Some day => Some {| ts_day := day; ts_time := 0 |}
    | None => None
    end
  else None.

Definition time_of (hs ms ss : string) : option Z :=
  match number hs, number ms, number ss with
  | Some h, Some m, Some s =>
    if ((h <? 24) && (m <? 60) && (s <? 60))%Z
    then Some (h * 3600 + m * 60 + s)%Z else None
  | _, _, _ => None
  end.

Definition parse_iso (s : string) : option Timestamp :=
  let day := date_of (substring 0 4 s) (substring 5 2 s) (substring 8 2 s) in
  let dashes := String.eqb (substring 4 1 s) "-"
                && String.eqb (substring 7 1 s) "-" in
  if negb dashes then None
  else if (String.length s =? 10)%nat then
    match day with
    | Some d => Some {| ts_day := d; ts_time := 0 |}
    | None => None
    end
  else if (String.length s =? 19)%nat
          && String.eqb (substring 10 1 s) " "
          && String.eqb (substring 13 1 s) ":"
          && String.eqb (substring 16 1 s) ":" then
    match day, time_of (substring 11 2 s) (substring 14 2 s)
                 (substring 17 2 s) with
    | Some d, Some t => Some {| ts_day := d; ts_time := t |}
    | _, _ => None
    end
  else None.

Definition parse_datetime (s : string) : option Timestamp :=
  match parse_ymd s with
  | Some t => Some t
  | None => parse_iso s
  end.

Fixpoint split_at (c : ascii) (s : string) : string * option string :=
  match s with
  | EmptyString => ("", None)
  | String a rest =>
    if Ascii.eqb a c then ("", Some rest)
    else let '(h, t) := split_at c rest in (String a h, t)
  end.

(** [digits], [digits.], [digits.digits] or [.digits] *)
Definition parse_unsigned (s : string) : option Q :=
  match split_at "." s with
  | (ip, None) =>
    match number ip with
    | Some n => Some (inject_Z n)
    | None => None
    end
  | (ip, Some fp) =>
    if String.eqb ip "" && String.eqb fp "" then None
    else
      match digits_from 0%Z ip, digits_from 0%Z fp with
      | Some n, Some f =>
        let scale := (10 ^ Z.of_nat (String.length fp))%Z in
        Some (Qmake (n * scale + f) (Z.to_pos scale))
      | _, _ => None
      end
  end.

Definition parse_magnitude (s : string) : option pyfloat :=
  let l := lower s in
  if String.eqb l "nan" then Some Nan
  else if String.eqb l "inf" || String.eqb l "infinity" then Some PInf
  else
    match parse_unsigned s with
    | Some q => Some (Finite q)
    | None => None
    end.

Definition negate (f : pyfloat) : pyfloat :=
  match f with
  | Finite q => Finite (Qopp q)
  | PInf => NInf
  | NInf => PInf
  | Nan => Nan
  end.

Definition parse_float (s : string) : option pyfloat :=
  match strip s with
  | String "-" rest => option_map negate (parse_magnitude rest)
  | String "+" rest => parse_magnitude rest
  | t => parse_magnitude t
  end.

Fixpoint frac_digits (fuel : nat) (num den : Z) : string :=
  match fuel with
  | O => ""
  | S f =>
    if (num =? 0)%Z then ""
    else pretty (num * 10 / den)%Z ++ frac_digits f (num * 10 mod den)%Z den
  end.

Definition str_of_Q (q : Q) : string :=
  let d := Zpos (Qden q) in
  let a := Z.abs (Qnum q) in
  let fp := frac_digits 17 (a mod d)%Z d in
  (if (Qnum q <? 0)%Z then "-" else "")
  ++ pretty (a / d)%Z ++ "." ++ (if String.eqb fp "" then "0" else fp).

Definition two_digits (n : Z) : string :=
  (if (n <? 10)%Z then "0" else "") ++ pretty n.

Definition str_of_timestamp (t : Timestamp) : string :=
  let day := ts_day t in
  let date := pretty (day / 10000)%Z ++ "-"
              ++ two_digits (day / 100 mod 100)%Z ++ "-"
              ++ two_digits (day mod 100)%Z in
  let s := ts_time t in
  date ++ " " ++ two_digits (s / 3600)%Z ++ ":"
  ++ two_digits (s / 60 mod 60)%Z ++ ":" ++ two_digits (s mod 60)%Z.

Definition str_of_value (v : value) : string :=
  match v with
  | VNone => "None"
  | VFloat (Finite q) => str_of_Q q
  | VFloat PInf => "inf"
  | VFloat NInf => "-inf"
  | VFloat Nan => "nan"
  | VStr s => s
  | VTimestamp t => str_of_timestamp t
  | VNaT => "NaT"
  | VInt z => pretty z
  end.

Definition is_operator (a : ascii) : bool :=
  existsb (Ascii.eqb a)
    (list_ascii_of_string ".^$*+?{}[]\|()").

(** Patterns without operators compile. *)
Definition plain_pattern (pat : string) : bool :=
  forallb (fun a => negb (is_operator a)) (list_ascii_of_string pat).

Fixpoint occurs (pat s : string) : bool :=
  String.prefix pat s
  || match s with
     | String _ rest => occurs pat rest
     | EmptyString => false
     end.

Definition search_plain (pat s : string) : bool :=
  occurs (lower pat) (lower s).

Definition float_of (v : value) : option pyfloat :=
  match v with
  | VFloat f => Some f
  | VInt z => Some (Finite (inject_Z z))
  | VStr s => parse_float s
  | _ => None
  end.

Definition numeric_of (v : value) : pyfloat :=
  match float_of v with
  | Some f => f
  | None => Nan
  end.

Definition ymd_of (v : value) : option Timestamp :=
  match v with
  | VStr s => parse_ymd s
  | VInt z => parse_ymd (pretty z)
  | _ => None
  end.

End Reference.

#[global] Instance reference_library : Library := {|
  to_datetime_ymd := Reference.ymd_of;
  to_datetime := Reference.parse_datetime;
  astype_str := Reference.str_of_value;
  re_valid := Reference.plain_pattern;
  re_search := Reference.search_plain;
  float := Reference.float_of;
  to_numeric := Reference.numeric_of
|}.

(* ===================================================================== *)
(** ** A small collection for examples *)
(* ===================================================================== *)

Definition record_of (date patient station : string) : dict :=
  <["ContentDate" := VStr date]>
    (<["PatientID" := VStr patient]> (<["StationName" := VStr station]> ∅)).

(** The second record has a date that does not parse. *)
Definition undated : dict := record_of "unknown" "P2" "Halo-2".

Definition sample_base : DataFrame :=
  reindex column_order
    (frame_of_records
       [record_of "20240101" "P1" "HALO"; undated;
        record_of "20240301" "P3" "Other"]).

Definition undated_row : dict := reindex_row column_order undated.

(** The application after loading [sample_base], with one text filter
    typed in and no date bound. *)
Definition sample_app : App :=
  {| data := sample_base; filtered_data := sample_base;
     active_filters := [("StationName", "halo")];
     start_date_entry := ""; end_date_entry := "";
     tree := rendered_frame sample_base |}.

(** The same with a lower date bound. *)
Definition bounded_app : App :=
  {| data := sample_base; filtered_data := sample_base;
     active_filters := [("StationName", "halo")];
     start_date_entry := "20230101"; end_date_entry := "";
     tree := rendered_frame sample_base |}.

(** A table with one column. *)
Definition column_frame (col : string) (cells : list value) : DataFrame :=
  {| columns := [col];
     rows := map (fun v => <[col := v]> (∅ : dict)) cells |}.

(** A column that mixes numbers and text. *)
Definition mixed_tree : DataFrame :=
  column_frame "KVP" [VStr "10"; VStr "2"; VStr "abc"].

(** A column of numbers. *)
Definition kvp_tree : DataFrame :=
  column_frame "KVP" [VStr "120"; VStr "80"; VStr "100"].

(** A table where SeriesNumber is as numeric as KVP. *)
Definition series_tree : DataFrame :=
  {| columns := ["SeriesNumber"; "KVP"; "StationName"];
     rows := [ <["SeriesNumber" := VStr "3"]>
                 (<["KVP" := VStr "120"]> (<["StationName" := VStr "HALO"]> ∅));
               <["SeriesNumber" := VStr "4"]>
                 (<["KVP" := VStr "80"]> (<["StationName" := VStr "HALO"]> ∅)) ] |}.

Definition exposure_row (patient : value) (date : string) : dict :=
  <["PatientID" := patient]> (<["ContentDate" := VStr date]> ∅).

(** A frame with three exposures of P1 and one of P2 on the same day;
    two of P3; three rows whose patient is NA; three rows with a date
    that does not parse. *)
Definition exposures_tree : DataFrame :=
  {| columns := ["PatientID"; "ContentDate"];
     rows := [ exposure_row (VStr "P1") "2024-01-01";
               exposure_row (VStr "P1") "2024-01-01 08:30:00";
               exposure_row (VStr "P2") "2024-01-01";
               exposure_row (VStr "P1") "20240101";
               exposure_row (VStr "P3") "2024-01-02";
               exposure_row (VStr "P3") "2024-01-02";
               exposure_row (VFloat Nan) "2024-01-03";
               exposure_row (VFloat Nan) "2024-01-03";
               exposure_row (VFloat Nan) "2024-01-03";
               exposure_row (VStr "P4") "NaT";
               exposure_row (VStr "P4") "NaT";
               exposure_row (VStr "P4") "NaT" ] |}.

(* ===================================================================== *)
(** ** The other filter commands *)
(* ===================================================================== *)

(** The state with another filter list, or other date entries. *)
Definition with_filters (filters : list (string * string)) (app : App) : App :=
  {| data := data app; filtered_data := filtered_data app;
     active_filters := filters;
     start_date_entry := start_date_entry app;
     end_date_entry := end_date_entry app;
     tree := tree app |}.

Definition with_entries (start_entry end_entry : string) (app : App) : App :=
  {| data := data app; filtered_data := filtered_data app;
     active_filters := active_filters app;
     start_date_entry := start_entry;
     end_date_entry := end_entry;
     tree := tree app |}.

(** [==] on (column, value) tuples. *)
Definition filter_eqb (a b : string * string) : bool :=
  String.eqb (fst a) (fst b) && String.eqb (snd a) (snd b).

(** [list.remove(x)] for an [x] that is in the list: the first
    occurrence goes. *)
Fixpoint list_remove (x : string * string) (l : list (string * string))
    : list (string * string) :=
  match l with
  | [] => []
  | y :: rest => if filter_eqb x y then rest else y :: list_remove x rest
  end.

Section Commands.

Context `{Lib : Library}.

(** [remove_filter] *)
Definition remove_filter (column value : string) (app : App)
    : App * res (list string) :=
  if existsb (filter_eqb (column, value)) (active_filters app) then
    apply_all_filters
      (with_filters (list_remove (column, value) (active_filters app)) app)
  else (app, Ok []).

(** The [remove] closure of [refresh_filter_display], bound to the
    position [idx]: [list.pop(idx)] raises IndexError past the end. *)
Definition remove_at (idx : nat) (app : App) : App * res (list string) :=
  match active_filters app !! idx with
  | Some _ =>
    apply_all_filters (with_filters (delete idx (active_filters app)) app)
  | None => (app, Raise IndexError)
  end.

Definition clear_start_date_filter (app : App) : App * res (list string) :=
  apply_all_filters (with_entries "" (end_date_entry app) app).

Definition clear_end_date_filter (app : App) : App * res (list string) :=
  apply_all_filters (with_entries (start_date_entry app) "" app).

(** The frame [apply_date_range] computes: the date column is parsed
    only when one of the entries is filled in, and the text filters
    are not applied. *)
Definition date_range_frame (base : DataFrame) (start_entry end_entry : string)
    : res (DataFrame * list string) :=
  let df := base in
  let start_date := strip start_entry in
  let end_date := strip end_entry in
  if negb (String.eqb start_date "") || negb (String.eqb end_date "") then
    df <-! map_column "ContentDate" coerce_datetime df;
    let '(df, m1) := date_bound start_date date_ge start_error df in
    let '(df, m2) := date_bound end_date date_le end_error df in
    Ok (df, (m1 ++ m2)%list)
  else Ok (df, []).

(** [apply_date_range] *)
Definition apply_date_range (app : App) : App * res (list string) :=
  match date_range_frame (data app) (start_date_entry app)
          (end_date_entry app) with
  | Ok (df, msgs) =>
    (display_table df
       {| data := data app; filtered_data := df;
          active_filters := active_filters app;
          start_date_entry := start_date_entry app;
          end_date_entry := end_date_entry app;
          tree := tree app |},
     Ok msgs)
  | Raise e => (app, Raise e)
  end.

(** Whether a row is within the bound an entry sets: an empty entry, or
    one that does not parse, sets none. *)
Definition within_entry (entry : string) (within : Timestamp -> dict -> bool)
    (r : dict) : bool :=
  if String.eqb entry "" then true
  else
    match to_datetime_ymd (VStr entry) with
    | Some bound => within bound r
    | None => true
    end.

(** The rows a view keeps: within both date bounds and passing every
    text filter. *)
Definition kept (base : DataFrame) (s e : string)
    (filters : list (string * string)) (r : dict) : bool :=
  within_entry (strip s) date_ge r
  && within_entry (strip e) date_le r
  && passes (columns base) filters r.

End Commands.

(* ===================================================================== *)
(** ** More examples *)
(* ===================================================================== *)

(** A leaf that gives KVP once more, as a text. *)
Definition kvp_text_item : ContentItem :=
  MkItem (Some [{| CodeMeaning := Some "KVP" |}])
         None (Some "80") None None None None.

(** A KVP item whose measurement sequence is empty. *)
Definition broken_item : ContentItem :=
  MkItem (Some [{| CodeMeaning := Some "KVP" |}])
         (Some []) (Some "80") None None None None.

Definition broken_document : Dataset :=
  {| ds_attrs := ∅; ds_ContentSequence := Some [kvp_item; broken_item] |}.

(** A document whose tree and whose attributes both give ContentDate. *)
Definition dated_document : Dataset :=
  {| ds_attrs := <["ContentDate" := Some "20240101"]>
                   (<["StationName" := None]> ∅);
     ds_ContentSequence :=
       Some [MkItem (Some [{| CodeMeaning := Some "ContentDate" |}])
                    None (Some "1 January") None None None None;
             MkItem (Some [{| CodeMeaning := Some "StationName" |}])
                    None (Some "HALO") None None None None] |}.

Definition sample_files : list File :=
  [ {| fname := "a.dcm"; dcmread := Ok sample_document |};
    {| fname := "readme.txt"; dcmread := Raise InvalidDicomError |};
    {| fname := "b.dcm"; dcmread := Ok dated_document |} ].

(** Both date entries set to the day of the first record. *)
Definition exact_app : App :=
  with_entries "20240101" " 20240101 " (with_filters [] sample_app).

(** A lower bound typed with dashes, which the format does not read. *)
Definition dashed_app : App := with_entries "2024-01-01" "" sample_app.

(** A second filter on a column the collection does not have, with a
    pattern that does not compile. *)
Definition region_filter : string * string := ("Target Region", "(").

(** A document dated 1 January 2024 that carries no PatientID. *)
Definition anonymous_document : Dataset :=
  {| ds_attrs := <["ContentDate" := Some "20240101"]>
                   (<["StationName" := Some "HALO"]> ∅);
     ds_ContentSequence := None |}.

Definition anonymous_files : list File :=
  [ {| fname := "a.dcm"; dcmread := Ok anonymous_document |};
    {| fname := "b.dcm"; dcmread := Ok anonymous_document |};
    {| fname := "c.dcm"; dcmread := Ok anonymous_document |} ].

(** The application once that folder is chosen. *)
Definition anonymous_app : App := fst (select_folder anonymous_files init).

(* ===================================================================== *)
(** ** Order of a sorted table *)
(* ===================================================================== *)

(** Every element of the list stands in [R] to the one that follows
    it. *)
Fixpoint chain {A} (R : A -> A -> Prop) (l : list A) : Prop :=
  match l with
  | a :: tl =>
    match tl with
    | b :: _ => R a b /\ chain R tl
    | [] => True
    end
  | [] => True
  end.

(** [b] is not smaller than [a]: the comparison [b < a] is made and is
    false. *)
Definition not_before (a b : value) : Prop := py_lt b a = Ok false.

(** A table whose only numeric column is an excluded one. *)
Definition series_only_tree : DataFrame :=
  {| columns := ["SeriesNumber"; "StationName"];
     rows := [ <["SeriesNumber" := VStr "3"]> (<["StationName" := VStr "HALO"]> ∅);
               <["SeriesNumber" := VStr "4"]> (<["StationName" := VStr "HALO"]> ∅) ] |}.

(** The groups, when a summary is shown. *)
Definition shown_groups (o : exposures_outcome) : list (value * value * nat) :=
  match o with
  | ExposuresShown _ groups => groups
  | _ => []
  end.

(* ===================================================================== *)
(** * Properties *)
(* ===================================================================== *)

(** ** The monad and the dictionary *)

Lemma bind_Ok {A B} (m : res A) (k : A -> res B) b :
  bind m k = Ok b -> exists a, m = Ok a /\ k a = Ok b.
Proof. destruct m as [a|e]; simpl; [eauto | discriminate]. Qed.

Lemma Ok_value_or {A} (m : res A) d :
  succeeds m = true -> m = Ok (value_or d m).
Proof. destruct m; simpl; [reflexivity | discriminate]. Qed.

Lemma pair_snd {A B} (p : A * B) b : snd p = b -> p = (fst p, b).
Proof. destruct p; simpl; intros ->; reflexivity. Qed.

Ltac bind_inv H :=
  let a := fresh "a" in
  let Ha := fresh "Ha" in
  apply bind_Ok in H; destruct H as [a [Ha H]].

Lemma mem_In name l : mem name l = true <-> In name l.
Proof.
  unfold mem. rewrite existsb_exists. split.
  - intros [x [Hin Heq]]. apply String.eqb_eq in Heq. congruence.
  - intros Hin. exists name. split; [assumption | apply String.eqb_refl].
Qed.

Lemma mem_false name l : mem name l = false <-> ~ In name l.
Proof.
  rewrite <- mem_In. destruct (mem name l); split; congruence.
Qed.

Lemma column_order_targets : column_order = target_concepts.
Proof. reflexivity. Qed.

Lemma is_target_Some cn :
  mem cn target_concepts = true -> is_target (Some cn) = true.
Proof.
  intros H. unfold is_target. rewrite H, andb_true_r.
  destruct (String.eqb_spec cn ""); [subst; discriminate H | reflexivity].
Qed.

Lemma is_target_mem name :
  is_target name = true ->
  exists cn, name = Some cn /\ mem cn target_concepts = true.
Proof.
  destruct name as [cn|]; simpl; [|discriminate].
  intros H. apply andb_true_iff in H. exists cn. tauto.
Qed.

(** ** The extractor *)

(** The nested loop of [parse_item] is [parse_sequence]. *)
Lemma parse_item_eq cns mvs tv dt uid pn cs data :
  parse_item (MkItem cns mvs tv dt uid pn cs) data =
  bind (visit cns mvs tv dt uid pn data) (descend cs).
Proof.
  simpl. destruct (visit cns mvs tv dt uid pn data) as [d|e]; simpl; [|reflexivity].
  destruct cs as [seq|]; simpl; [|reflexivity].
  revert d. induction seq as [|it rest IH]; intros d; simpl; [reflexivity|].
  destruct (parse_item it d); simpl; [apply IH | reflexivity].
Qed.

Lemma keys_in_targets_empty : keys_in_targets ∅.
Proof. intros k [v Hv]. rewrite lookup_empty in Hv. discriminate. Qed.

Lemma keys_in_targets_insert k v (data : dict) :
  mem k target_concepts = true ->
  keys_in_targets data -> keys_in_targets (<[k := v]> data).
Proof.
  intros Hk Hd k' Hs. destruct (decide (k = k')) as [<-|Hne]; [assumption|].
  rewrite lookup_insert_ne in Hs by assumption. auto.
Qed.

Lemma visit_keys cns mvs tv dt uid pn data data' :
  visit cns mvs tv dt uid pn data = Ok data' ->
  keys_in_targets data -> keys_in_targets data'.
Proof.
  unfold visit. intros H Hd. bind_inv H. rename a into name.
  destruct (is_target name) eqn:Ht.
  - apply is_target_mem in Ht. destruct Ht as [cn [-> Hm]].
    bind_inv H. simpl in H.
    destruct a as [x|]; inversion H; subst; auto using keys_in_targets_insert.
  - inversion H; subst; assumption.
Qed.

Lemma parse_sequence_Forall (Q : dict -> Prop) seq :
  Forall (fun it => forall d d', parse_item it d = Ok d' -> Q d -> Q d') seq ->
  forall d d', parse_sequence seq d = Ok d' -> Q d -> Q d'.
Proof.
  induction 1 as [|it rest Hit _ IH]; intros d d' H Hd; simpl in H.
  - inversion H; subst; assumption.
  - bind_inv H. eauto.
Qed.

Lemma parse_item_keys item :
  forall data data',
    parse_item item data = Ok data' ->
    keys_in_targets data -> keys_in_targets data'.
Proof.
  induction item as [cns mvs tv dt uid pn cs IH] using ContentItem_nested_ind.
  intros data data' H Hd. rewrite parse_item_eq in H. bind_inv H.
  apply visit_keys in Ha; [|assumption].
  destruct cs as [seq|]; simpl in H.
  - eapply parse_sequence_Forall; eauto.
  - inversion H; subst; assumption.
Qed.

Lemma parse_sequence_keys seq data data' :
  parse_sequence seq data = Ok data' ->
  keys_in_targets data -> keys_in_targets data'.
Proof.
  apply parse_sequence_Forall.
  apply Forall_forall. intros it _. apply parse_item_keys.
Qed.

Lemma top_level_step_keys ds data tag :
  mem tag target_concepts = true ->
  keys_in_targets data -> keys_in_targets (top_level_step ds data tag).
Proof.
  intros Ht Hd. unfold top_level_step.
  destruct (ds_attrs ds !! tag) as [[s|]|]; auto using keys_in_targets_insert.
Qed.

Lemma fold_top_level_keys ds tags :
  (forall t, In t tags -> mem t target_concepts = true) ->
  forall data, keys_in_targets data ->
               keys_in_targets (fold_left (top_level_step ds) tags data).
Proof.
  induction tags as [|t rest IH]; intros Hall data Hd; simpl; [assumption|].
  apply IH.
  - intros t' Ht'. apply Hall. right. assumption.
  - apply top_level_step_keys; [apply Hall; left; reflexivity | assumption].
Qed.

Lemma top_level_keys ds data :
  keys_in_targets data -> keys_in_targets (top_level ds data).
Proof.
  apply fold_top_level_keys. intros t Ht. apply mem_In. assumption.
Qed.

Lemma extract_keys ds data :
  extract_targeted_data ds = Ok data -> keys_in_targets data.
Proof.
  unfold extract_targeted_data. intros H. bind_inv H.
  inversion H; subst. apply top_level_keys.
  destruct (ds_ContentSequence ds) as [seq|].
  - eapply parse_sequence_keys; [eassumption | apply keys_in_targets_empty].
  - inversion Ha; subst. apply keys_in_targets_empty.
Qed.

Lemma visit_total cns mvs tv dt uid pn data :
  cns <> Some [] -> mvs <> Some [] ->
  is_Ok (visit cns mvs tv dt uid pn data).
Proof.
  intros Hc Hm. unfold visit, is_Ok.
  assert (exists name, concept_name_of cns = Ok name) as [name ->].
  { destruct cns as [[|c cs]|]; simpl; [congruence | eauto | eauto]. }
  cbn [bind]. destruct (is_target name); [|eauto].
  destruct mvs as [[|m ms]|]; [congruence | simpl; eauto |].
  destruct tv, dt, uid, pn; simpl; eauto.
Qed.

Lemma parse_sequence_total seq :
  Forall (fun it => measured_ok it = true ->
                    forall d, is_Ok (parse_item it d)) seq ->
  forallb measured_ok seq = true ->
  forall d, is_Ok (parse_sequence seq d).
Proof.
  induction 1 as [|it rest Hit _ IH]; intros Hok d; simpl in *.
  - unfold is_Ok; eauto.
  - apply andb_true_iff in Hok. destruct Hok as [H1 H2].
    destruct (Hit H1 d) as [d' Hd']. rewrite Hd'. simpl. auto.
Qed.

Lemma parse_item_total item :
  measured_ok item = true -> forall d, is_Ok (parse_item item d).
Proof.
  induction item as [cns mvs tv dt uid pn cs IH] using ContentItem_nested_ind.
  intros Hok d. simpl in Hok. apply andb_true_iff in Hok.
  destruct Hok as [Hm Hc]. apply andb_true_iff in Hm.
  destruct Hm as [Hn Hm]. rewrite parse_item_eq.
  destruct (visit_total cns mvs tv dt uid pn d) as [d1 Hd1].
  { destruct cns as [[|]|]; congruence. }
  { destruct mvs as [[|]|]; congruence. }
  rewrite Hd1. simpl. destruct cs as [seq|]; simpl.
  - apply parse_sequence_total; assumption.
  - unfold is_Ok; eauto.
Qed.

(** Extraction returns a dictionary for every document whose tree has
    no empty [ConceptNameCodeSequence] or [MeasuredValueSequence]. *)
Lemma extract_total ds :
  tree_ok ds = true -> is_Ok (extract_targeted_data ds).
Proof.
  unfold tree_ok, extract_targeted_data. intros Hok.
  destruct (ds_ContentSequence ds) as [seq|]; simpl.
  - destruct (parse_sequence_total seq) with (d := (∅ : dict)) as [d Hd].
    + apply Forall_forall. intros it _. apply parse_item_total.
    + assumption.
    + rewrite Hd. simpl. unfold is_Ok; eauto.
  - unfold is_Ok; eauto.
Qed.

(** C10: every key of the dictionary [extract_targeted_data] returns is
    one of [target_concepts], whether the tree traversal or the pass over
    the top-level attributes wrote it. *)
Theorem extract_targeted_data_keys ds data k :
  extract_targeted_data ds = Ok data ->
  is_Some (data !! k) ->
  In k target_concepts.
Proof.
  intros H Hk. apply mem_In. exact (extract_keys ds data H k Hk).
Qed.

Lemma extract_targeted_data_keys_witness :
  is_Some (value_or ∅ (extract_targeted_data sample_document) !! "KVP")
  /\ In "KVP" target_concepts.
Proof.
  assert (S : is_Some (value_or ∅ (extract_targeted_data sample_document)
                       !! "KVP"))
    by (vm_compute; eexists; reflexivity).
  split; [exact S|].
  apply (extract_targeted_data_keys sample_document
           (value_or ∅ (extract_targeted_data sample_document)) "KVP").
  - apply Ok_value_or. vm_compute. reflexivity.
  - exact S.
Defined.

(** C5: for an item whose concept name is in the dictionary, one value
    is read, by the first kind present in the order measurement, text,
    date-time, identifier, person name; with none of the five, the
    dictionary goes on unchanged and nothing is raised.  In each case
    the nested items are visited next. *)
Theorem parse_item_precedence cns mvs tv dt uid pn cs data cn :
  concept_name_of cns = Ok (Some cn) ->
  mem cn target_concepts = true ->
  let run := parse_item (MkItem cns mvs tv dt uid pn cs) data in
  (forall m ms, mvs = Some (m :: ms) ->
     run = descend cs (<[cn := of_numeric (NumericValue m)]> data))
  /\ (forall s, mvs = None -> tv = Some s ->
        run = descend cs (<[cn := VStr s]> data))
  /\ (forall s, mvs = None -> tv = None -> dt = Some s ->
        run = descend cs (<[cn := VStr s]> data))
  /\ (forall s, mvs = None -> tv = None -> dt = None -> uid = Some s ->
        run = descend cs (<[cn := VStr s]> data))
  /\ (forall s, mvs = None -> tv = None -> dt = None -> uid = None ->
        pn = Some s ->
        run = descend cs (<[cn := VStr s]> data))
  /\ (mvs = None -> tv = None -> dt = None -> uid = None -> pn = None ->
        run = descend cs data).
Proof.
  intros Hcn Hm run. subst run. rewrite parse_item_eq. unfold visit.
  rewrite Hcn. cbn [bind]. rewrite (is_target_Some cn Hm). simpl.
  repeat split; intros; subst; reflexivity.
Qed.

Lemma parse_item_precedence_witness :
  parse_item kvp_item ∅ = Ok (<["KVP" := VFloat (Finite (120 # 1))]> ∅).
Proof.
  exact (proj1 (parse_item_precedence
                  (Some [{| CodeMeaning := Some "KVP" |}])
                  (Some [{| NumericValue := Some (120 # 1) |}])
                  (Some "one hundred and twenty") None None None None
                  ∅ "KVP" eq_refl eq_refl)
               _ _ eq_refl).
Defined.

(** ** The loader *)

Lemma truthy_empty : truthy ∅ = false.
Proof. reflexivity. Qed.

Lemma truthy_lookup (info : dict) :
  truthy info = true <-> exists k, is_Some (info !! k).
Proof.
  unfold truthy. rewrite negb_true_iff, bool_decide_eq_false. split.
  - intros Hne. apply map_choose in Hne. destruct Hne as [k [v Hv]].
    exists k. rewrite Hv. eauto.
  - intros [k [v Hv]] ->. rewrite lookup_empty in Hv. discriminate.
Qed.

Lemma collect_complete files :
  forall infos acc,
    Forall2 (fun f info => extract_file f = Ok info) (dcm_files files) infos ->
    collect files acc = Ok (acc ++ List.filter truthy infos)%list.
Proof.
  unfold dcm_files.
  induction files as [|f rest IH]; intros infos acc H; simpl in *.
  - inversion H; subst. simpl. rewrite app_nil_r. reflexivity.
  - destruct (endswith (fname f) ".dcm"); [|auto].
    inversion H as [|? info ? infos' Hf Hrest]; subst.
    unfold extract_file in Hf. bind_inv Hf. rewrite Ha. simpl.
    rewrite Hf. simpl. destruct (truthy info); [|auto].
    rewrite (IH infos' _ Hrest), <- app_assoc. reflexivity.
Qed.

Lemma collect_sound files :
  forall acc records,
    collect files acc = Ok records ->
    exists infos,
      Forall2 (fun f info => extract_file f = Ok info) (dcm_files files) infos
      /\ records = (acc ++ List.filter truthy infos)%list.
Proof.
  unfold dcm_files.
  induction files as [|f rest IH]; intros acc records H; simpl in *.
  - inversion H; subst. exists []. split; [constructor|].
    simpl. rewrite app_nil_r. reflexivity.
  - destruct (endswith (fname f) ".dcm"); [|auto].
    bind_inv H. bind_inv H. rename a0 into info.
    assert (Hx : extract_file f = Ok info)
      by (unfold extract_file; rewrite Ha; exact Ha0).
    destruct (truthy info) eqn:Ht.
    + apply IH in H. destruct H as [infos [HF ->]].
      exists (info :: infos). split; [constructor; assumption|].
      simpl. rewrite Ht, <- app_assoc. reflexivity.
    + apply IH in H. destruct H as [infos [HF ->]].
      exists (info :: infos). split; [constructor; assumption|].
      simpl. rewrite Ht. reflexivity.
Qed.

Lemma reindex_row_lookup cols (r : dict) c :
  reindex_row cols r !! c = if mem c cols then Some (cell r c) else None.
Proof.
  unfold reindex_row. induction cols as [|x rest IH]; simpl.
  - apply lookup_empty.
  - destruct (String.eqb_spec c x) as [->|Hne]; simpl.
    + apply lookup_insert_eq.
    + rewrite lookup_insert_ne by congruence. exact IH.
Qed.

(** C1 (as the code has it): of the documents that are read and
    extracted, those with at least one extracted key each give one row,
    in order; a document with no extracted key gives none. *)
Theorem load_dicom_data_rows files infos :
  Forall2 (fun f info => extract_file f = Ok info) (dcm_files files) infos ->
  load_dicom_data files
  = Ok {| columns := column_order;
          rows := map (reindex_row column_order)
                      (List.filter truthy infos) |}.
Proof.
  intros H. unfold load_dicom_data.
  rewrite (collect_complete files infos [] H). reflexivity.
Qed.

Lemma load_dicom_data_rows_witness :
  load_dicom_data
    [empty_file; {| fname := "a.dcm"; dcmread := Ok sample_document |};
     {| fname := "notes.txt"; dcmread := Raise InvalidDicomError |}]
  = Ok {| columns := column_order;
          rows := map (reindex_row column_order)
                      (List.filter truthy
                         [∅; <["PatientID" := VStr "P1"]>
                               (<["ContentDate" := VStr "20240101"]>
                                  (<["KVP" := VFloat (Finite (120 # 1))]> ∅))]) |}.
Proof.
  apply load_dicom_data_rows.
  repeat constructor; vm_compute; reflexivity.
Defined.

(** C1, refuted as stated: the document [empty_document] is read and
    extracted to a dictionary without keys, and the collection built
    from it has no row. *)
Lemma empty_record_dropped :
  extract_file empty_file = Ok ∅
  /\ load_dicom_data [empty_file]
     = Ok {| columns := column_order; rows := [] |}.
Proof. split; vm_compute; reflexivity. Qed.

Lemma Forall2_In_r {A B} (R : A -> B -> Prop) l l' y :
  Forall2 R l l' -> In y l' -> exists x, In x l /\ R x y.
Proof.
  induction 1 as [|x y' l l' Hxy _ IH]; intros Hin; simpl in Hin; [tauto|].
  destruct Hin as [->|Hin].
  - exists x. split; [left; reflexivity | assumption].
  - destruct (IH Hin) as [x' [Hx' Hr]]. exists x'. split; [right|]; assumption.
Qed.

(** C6: the collection [load_dicom_data] builds has the columns of
    [column_order], in that order; each of its rows has a cell under
    every one of these labels and under no other, and the cell of a
    concept for which the document gave no value is the missing
    value. *)
Theorem load_dicom_data_schema files df :
  load_dicom_data files = Ok df ->
  columns df = column_order
  /\ forall r, In r (rows df) ->
       (forall c, is_Some (r !! c) <-> In c column_order)
       /\ exists f info,
            In f files /\ extract_file f = Ok info
            /\ forall c, In c column_order ->
                 r !! c = Some (cell info c)
                 /\ (info !! c = None -> r !! c = Some (VFloat Nan)).
Proof.
  unfold load_dicom_data. intros H. bind_inv H. inversion H; subst; clear H.
  split; [reflexivity|]. cbn [rows reindex frame_of_records]. intros r Hr.
  apply in_map_iff in Hr. destruct Hr as [info [<- Hinfo]].
  split.
  - intros c. rewrite reindex_row_lookup, <- mem_In.
    destruct (mem c column_order); split; intros Hc; eauto;
      try discriminate; destruct Hc; discriminate.
  - apply collect_sound in Ha. destruct Ha as [infos [HF ->]].
    apply filter_In in Hinfo. destruct Hinfo as [Hinfo _].
    destruct (Forall2_In_r _ _ _ _ HF Hinfo) as [f [Hf Hx]].
    exists f, info. split; [|split; [assumption|]].
    + unfold dcm_files in Hf. apply filter_In in Hf. tauto.
    + intros c Hc. apply mem_In in Hc.
      rewrite reindex_row_lookup, Hc. split; [reflexivity|].
      intros Hnone. unfold cell. rewrite Hnone. reflexivity.
Qed.

Lemma load_dicom_data_schema_witness :
  columns (value_or empty_frame
             (load_dicom_data
                [{| fname := "a.dcm"; dcmread := Ok sample_document |}]))
  = column_order.
Proof.
  refine (proj1 (load_dicom_data_schema
                   [{| fname := "a.dcm"; dcmread := Ok sample_document |}]
                   _ _)).
  apply Ok_value_or. vm_compute. reflexivity.
Defined.

(** ** The filter pipeline *)

Section Filters.

Context `{Lib : Library}.

Lemma select_select p q df :
  select p (select q df) = select (fun r => q r && p r) df.
Proof.
  unfold select. simpl. f_equal.
  induction (rows df) as [|r l IH]; simpl; [reflexivity|].
  destruct (q r); simpl; [destruct (p r)|]; rewrite IH; reflexivity.
Qed.

Lemma select_ext p q df :
  (forall r, p r = q r) -> select p df = select q df.
Proof.
  intros H. unfold select. f_equal. apply filter_ext. assumption.
Qed.

Lemma select_true df : select (fun _ => true) df = df.
Proof.
  destruct df as [cols rs]. unfold select. simpl. f_equal.
  induction rs as [|r l IH]; simpl; congruence.
Qed.

(** The loop over the filters keeps the rows that pass all of them, or
    raises at the first pattern that does not compile. *)
Lemma dynamic_filters_spec filters :
  forall df,
    dynamic_filters filters df
    = if patterns_ok (columns df) filters
      then Ok (select (passes (columns df) filters) df)
      else Raise ReError.
Proof.
  induction filters as [|[col val] rest IH]; intros df;
    unfold patterns_ok, passes; simpl.
  - rewrite select_true. reflexivity.
  - destruct (mem col (columns df)) eqn:Hc; simpl.
    + destruct (re_valid val); simpl; [|reflexivity].
      rewrite IH. simpl. fold (patterns_ok (columns df) rest).
      destruct (patterns_ok (columns df) rest); [|reflexivity].
      rewrite select_select. reflexivity.
    + rewrite IH. fold (patterns_ok (columns df) rest).
      destruct (patterns_ok (columns df) rest); reflexivity.
Qed.

Lemma date_bound_columns entry within error df :
  columns (fst (date_bound entry within error df)) = columns df.
Proof.
  unfold date_bound. destruct (String.eqb entry ""); [reflexivity|].
  destruct (to_datetime_ymd (VStr entry)); reflexivity.
Qed.

Lemma date_bound_rows entry within error df r :
  In r (rows (fst (date_bound entry within error df))) -> In r (rows df).
Proof.
  unfold date_bound. destruct (String.eqb entry ""); [tauto|].
  destruct (to_datetime_ymd (VStr entry)); simpl; [|tauto].
  intros H. apply filter_In in H. tauto.
Qed.

Lemma date_bound_active entry within error df bound r :
  entry <> "" ->
  to_datetime_ymd (VStr entry) = Some bound ->
  In r (rows (fst (date_bound entry within error df))) ->
  within bound r = true.
Proof.
  intros Hne Hb. unfold date_bound.
  destruct (String.eqb_spec entry ""); [contradiction|].
  rewrite Hb. simpl. intros H. apply filter_In in H. tauto.
Qed.

Lemma date_bound_empty within error df :
  date_bound "" within error df = (df, []).
Proof. reflexivity. Qed.

(** The frame with the date column parsed, before any row is dropped. *)
Lemma map_column_date base :
  mem "ContentDate" (columns base) = true ->
  map_column "ContentDate" coerce_datetime base
  = Ok {| columns := columns base; rows := map with_date (rows base) |}.
Proof. intros H. unfold map_column. rewrite H. reflexivity. Qed.

Lemma map_column_missing base :
  mem "ContentDate" (columns base) = false ->
  map_column "ContentDate" coerce_datetime base = Raise KeyError.
Proof. intros H. unfold map_column. rewrite H. reflexivity. Qed.

Lemma with_date_cell r :
  cell (with_date r) "ContentDate" = coerce_datetime (cell r "ContentDate").
Proof. unfold with_date, cell at 1. rewrite lookup_insert_eq. reflexivity. Qed.

(** What [filtered_frame] returns, step by step. *)
Lemma filtered_frame_inv base s e filters df msgs :
  filtered_frame base s e filters = Ok (df, msgs) ->
  mem "ContentDate" (columns base) = true
  /\ exists d1 d2,
       let d0 := {| columns := columns base;
                    rows := map with_date (rows base) |} in
       d1 = fst (date_bound (strip s) date_ge start_error d0)
       /\ d2 = fst (date_bound (strip e) date_le end_error d1)
       /\ patterns_ok (columns base) filters = true
       /\ df = select (passes (columns base) filters) d2.
Proof.
  unfold filtered_frame. intros H.
  destruct (mem "ContentDate" (columns base)) eqn:Hc.
  - rewrite (map_column_date base Hc) in H. simpl in H.
    split; [reflexivity|].
    set (d0 := {| columns := columns base; rows := map with_date (rows base) |}) in *.
    destruct (date_bound (strip s) date_ge start_error d0) as [d1 m1] eqn:E1.
    destruct (date_bound (strip e) date_le end_error d1) as [d2 m2] eqn:E2.
    exists d1, d2. simpl.
    assert (C1 : columns d1 = columns base).
    { pose proof (date_bound_columns (strip s) date_ge start_error d0) as C.
      rewrite E1 in C. exact C. }
    assert (C2 : columns d2 = columns base).
    { pose proof (date_bound_columns (strip e) date_le end_error d1) as C.
      rewrite E2 in C. simpl in C. congruence. }
    rewrite dynamic_filters_spec, C2 in H.
    destruct (patterns_ok (columns base) filters); simpl in H; [|discriminate].
    inversion H; subst. rewrite E2. simpl. repeat split; reflexivity.
  - rewrite (map_column_missing base Hc) in H. discriminate.
Qed.

(** [filtered_frame] returns as soon as the data has the date column
    and the patterns compile. *)
Lemma filtered_frame_total base s e filters :
  mem "ContentDate" (columns base) = true ->
  patterns_ok (columns base) filters = true ->
  exists df msgs, filtered_frame base s e filters = Ok (df, msgs).
Proof.
  intros Hc Hp. unfold filtered_frame.
  rewrite (map_column_date base Hc). simpl.
  set (d0 := {| columns := columns base; rows := map with_date (rows base) |}).
  pose proof (date_bound_columns (strip s) date_ge start_error d0) as C1.
  destruct (date_bound (strip s) date_ge start_error d0) as [d1 m1].
  pose proof (date_bound_columns (strip e) date_le end_error d1) as C2.
  destruct (date_bound (strip e) date_le end_error d1) as [d2 m2].
  simpl in *. rewrite dynamic_filters_spec, C2, C1. simpl. rewrite Hp.
  eauto.
Qed.


End Filters.

Section Pipeline.

Context `{Lib : Library}.

(** A call that returns has stored the frame [filtered_frame] computes
    in [filtered_data] and in the table, and left the rest alone. *)
Lemma apply_all_filters_Ok app app' msgs :
  apply_all_filters app = (app', Ok msgs) ->
  filtered_frame (data app) (start_date_entry app) (end_date_entry app)
                 (active_filters app)
  = Ok (filtered_data app', msgs)
  /\ data app' = data app
  /\ active_filters app' = active_filters app
  /\ start_date_entry app' = start_date_entry app
  /\ end_date_entry app' = end_date_entry app
  /\ tree app' = rendered_frame (filtered_data app').
Proof.
  unfold apply_all_filters.
  destruct (filtered_frame _ _ _ _) as [[df m]|err]; intros H;
    inversion H; subst; simpl; repeat split.
Qed.

(** C3: a row whose date does not parse is in no view computed under a
    date bound that is set and parses; with no date bound set it is in
    the view exactly when it passes the text filters, which are
    evaluated on it. *)
Theorem apply_all_filters_unparsed_date app app' msgs r0 :
  apply_all_filters app = (app', Ok msgs) ->
  In r0 (rows (data app)) ->
  to_datetime_ymd (cell r0 "ContentDate") = None ->
  (forall entry bound,
     entry = strip (start_date_entry app)
     \/ entry = strip (end_date_entry app) ->
     entry <> "" ->
     to_datetime_ymd (VStr entry) = Some bound ->
     ~ In (with_date r0) (rows (filtered_data app')))
  /\ (strip (start_date_entry app) = "" ->
      strip (end_date_entry app) = "" ->
      (In (with_date r0) (rows (filtered_data app'))
       <-> passes (columns (data app)) (active_filters app) (with_date r0)
           = true)).
Proof.
  intros H Hr0 Hnone. apply apply_all_filters_Ok in H.
  destruct H as [H _]. apply filtered_frame_inv in H.
  destruct H as [_ [d1 [d2 [E1 [E2 [_ Hdf]]]]]]. simpl in E1, E2.
  assert (Hnat : cell (with_date r0) "ContentDate" = VNaT).
  { rewrite with_date_cell. unfold coerce_datetime. rewrite Hnone. reflexivity. }
  split.
  - intros entry bound Hentry Hne Hb Hin. rewrite Hdf in Hin. simpl in Hin.
    apply filter_In in Hin. destruct Hin as [Hin _].
    destruct Hentry as [-> | ->].
    + rewrite E2 in Hin. apply date_bound_rows in Hin. rewrite E1 in Hin.
      apply (date_bound_active _ _ _ _ bound) in Hin; [|assumption..].
      unfold date_ge in Hin. rewrite Hnat in Hin. discriminate.
    + rewrite E2 in Hin.
      apply (date_bound_active _ _ _ _ bound) in Hin; [|assumption..].
      unfold date_le in Hin. rewrite Hnat in Hin. discriminate.
  - intros Hs He. rewrite Hs in E1. rewrite He in E2.
    rewrite date_bound_empty in E1. simpl in E1. subst d1.
    rewrite date_bound_empty in E2. simpl in E2. subst d2.
    rewrite Hdf. simpl. rewrite filter_In. split; [tauto|].
    intros Hp. split; [|assumption]. apply in_map. assumption.
Qed.

(** C8: applying the filters a second time leaves the state and the
    outcome as the first application made them; and the view depends on
    the full data, the two date entries and the filter list only, not
    on the view or the table of the state it starts from. *)
Theorem apply_all_filters_idempotent app :
  apply_all_filters (fst (apply_all_filters app)) = apply_all_filters app
  /\ forall other,
       data other = data app ->
       start_date_entry other = start_date_entry app ->
       end_date_entry other = end_date_entry app ->
       active_filters other = active_filters app ->
       snd (apply_all_filters other) = snd (apply_all_filters app)
       /\ forall msgs,
            snd (apply_all_filters app) = Ok msgs ->
            filtered_data (fst (apply_all_filters other))
            = filtered_data (fst (apply_all_filters app)).
Proof.
  split.
  - unfold apply_all_filters at 2 3.
    destruct (filtered_frame _ _ _ _) as [[df m]|err] eqn:E; simpl.
    + unfold apply_all_filters. simpl. rewrite E. reflexivity.
    + unfold apply_all_filters. rewrite E. reflexivity.
  - intros other Hd Hs He Hf. unfold apply_all_filters.
    rewrite Hd, Hs, He, Hf.
    destruct (filtered_frame _ _ _ _) as [[df m]|err]; simpl.
    + split; [reflexivity|]. reflexivity.
    + split; [reflexivity|]. intros msgs Hm. discriminate.
Qed.


End Pipeline.

Lemma apply_all_filters_unparsed_date_witness :
  (In (with_date undated_row)
      (rows (filtered_data (fst (apply_all_filters sample_app))))
   <-> passes (columns (data sample_app)) (active_filters sample_app)
              (with_date undated_row) = true)
  /\ ~ In (with_date undated_row)
          (rows (filtered_data (fst (apply_all_filters bounded_app)))).
Proof.
  split.
  - refine (proj2 (apply_all_filters_unparsed_date sample_app
                     (fst (apply_all_filters sample_app)) []
                     undated_row _ _ _) eq_refl eq_refl).
    + apply pair_snd. vm_compute. reflexivity.
    + right. left. reflexivity.
    + vm_compute. reflexivity.
  - refine (proj1 (apply_all_filters_unparsed_date bounded_app
                     (fst (apply_all_filters bounded_app)) []
                     undated_row _ _ _)
                  "20230101"
                  {| ts_day := 20230101; ts_time := 0 |} _ _ _).
    + apply pair_snd. vm_compute. reflexivity.
    + right. left. reflexivity.
    + vm_compute. reflexivity.
    + left. vm_compute. reflexivity.
    + discriminate.
    + vm_compute. reflexivity.
Defined.

(** The two sample states, run: without a date bound the undated row
    passes the filter on StationName and is shown; with the lower bound
    only the dated row that passes is. *)
Example sample_app_view :
  map (fun r => (cell r "PatientID", cell r "ContentDate"))
      (rows (filtered_data (fst (apply_all_filters sample_app))))
  = [(VStr "P1", VTimestamp {| ts_day := 20240101; ts_time := 0 |});
     (VStr "P2", VNaT)].
Proof. vm_compute. reflexivity. Qed.

Example bounded_app_view :
  map (fun r => (cell r "PatientID", cell r "ContentDate"))
      (rows (filtered_data (fst (apply_all_filters bounded_app))))
  = [(VStr "P1", VTimestamp {| ts_day := 20240101; ts_time := 0 |})].
Proof. vm_compute. reflexivity. Qed.


Lemma apply_all_filters_idempotent_witness :
  filtered_data (fst (apply_all_filters (fst (apply_all_filters sample_app))))
  = filtered_data (fst (apply_all_filters sample_app)).
Proof.
  refine (proj2 (proj2 (apply_all_filters_idempotent sample_app)
                   (fst (apply_all_filters sample_app))
                   eq_refl eq_refl eq_refl eq_refl) [] _).
  vm_compute. reflexivity.
Defined.


(** ** Summary statistics *)

Section Statistics.

Context `{Lib : Library}.

Lemma describe_variables tv kept :
  map variable (map (describe_column tv) kept) = kept.
Proof.
  induction kept as [|x kept IH]; simpl; [reflexivity | f_equal; exact IH].
Qed.

Lemma show_summary_stats_variables tv stats :
  show_summary_stats tv = StatsTable stats ->
  map variable stats
  = List.filter (fun c => negb (mem c excluded_variables)) (numeric_columns tv).
Proof.
  unfold show_summary_stats. destruct (rows tv); [discriminate|].
  destruct (numeric_columns tv) as [|c cs]; [discriminate|].
  destruct (List.filter _ (c :: cs)) as [|k ks]; [discriminate|].
  intros H. inversion H; subst; clear H.
  apply (describe_variables tv (k :: ks)).
Qed.

(** C7: no row of the statistics table is for one of the excluded
    columns, however numeric the column is; the table has one row for
    each other column with a numeric cell. *)
Theorem show_summary_stats_excluded tv stats :
  show_summary_stats tv = StatsTable stats ->
  (forall name, In name excluded_variables ->
                ~ In name (map variable stats))
  /\ (forall name, In name (map variable stats) <->
                   In name (columns tv) /\ has_numeric tv name = true
                   /\ ~ In name excluded_variables).
Proof.
  intros H. rewrite (show_summary_stats_variables tv stats H).
  split.
  - intros name Hex Hin. apply filter_In in Hin. destruct Hin as [_ Hin].
    apply mem_In in Hex. rewrite Hex in Hin. discriminate.
  - intros name. rewrite filter_In. unfold numeric_columns.
    rewrite filter_In, negb_true_iff, mem_false. tauto.
Qed.

End Statistics.

Lemma show_summary_stats_excluded_witness :
  has_numeric series_tree "SeriesNumber" = true
  /\ ~ In "SeriesNumber"
          (map variable
               [{| variable := "KVP"; count := 2;
                   observations := [Finite (120 # 1); Finite (80 # 1)] |}]).
Proof.
  split; [vm_compute; reflexivity|].
  refine (proj1 (show_summary_stats_excluded series_tree _ _) "SeriesNumber" _).
  - vm_compute. reflexivity.
  - apply mem_In. reflexivity.
Defined.

(** ** Sorting *)

Lemma py_lt_Ok a b r :
  py_lt a b = Ok r -> key_class a = key_class b /\ key_class a <> 0%nat.
Proof.
  destruct a, b; simpl; intros H; try discriminate; split; congruence.
Qed.

Lemma py_lt_Raise a b e : py_lt a b = Raise e -> e = TypeError.
Proof. destruct a, b; simpl; intros H; congruence. Qed.

Section SortFacts.

Context {A : Type}.

Implicit Types (x : value * A) (l acc : list (value * A)).

Lemma insert_sorted_Raise x l e :
  insert_sorted x l = Raise e -> e = TypeError.
Proof.
  induction l as [|y rest IH]; simpl; [discriminate|].
  destruct (py_lt (fst x) (fst y)) as [b|e'] eqn:E; simpl.
  - destruct b; [discriminate|].
    destruct (insert_sorted x rest); simpl; [discriminate|].
    intros H. inversion H; subst. apply IH. reflexivity.
  - intros H. inversion H; subst. eapply py_lt_Raise. eassumption.
Qed.

Lemma insert_sorted_In x l l' :
  insert_sorted x l = Ok l' -> forall z, In z l' <-> z = x \/ In z l.
Proof.
  revert l'. induction l as [|y rest IH]; simpl; intros l' H z.
  - inversion H; subst. simpl. intuition.
  - bind_inv H. destruct a.
    + inversion H; subst. simpl. intuition.
    + bind_inv H. inversion H; subst. simpl. rewrite (IH _ Ha0 z). intuition.
Qed.

Lemma insert_sorted_head x y rest l' :
  insert_sorted x (y :: rest) = Ok l' ->
  key_class (fst x) = key_class (fst y).
Proof.
  simpl. intros H. bind_inv H. apply py_lt_Ok in Ha. tauto.
Qed.

Lemma sort_from_Raise l : forall acc e,
  sort_from acc l = Raise e -> e = TypeError.
Proof.
  induction l as [|x rest IH]; intros acc e; simpl; [discriminate|].
  destruct (insert_sorted x acc) as [acc'|e'] eqn:E; simpl.
  - apply IH.
  - intros H. inversion H; subst. eapply insert_sorted_Raise. eassumption.
Qed.

(** A sort that returns has met keys of one kind only. *)
Lemma sort_from_uniform l : forall acc out y c,
  sort_from acc l = Ok out ->
  In y acc ->
  (forall z, In z acc -> key_class (fst z) = c) ->
  forall z, In z l -> key_class (fst z) = c.
Proof.
  induction l as [|x rest IH]; intros acc out y c H Hy Hacc z Hz;
    simpl in *; [tauto|].
  bind_inv H. rename a into acc'.
  assert (Hx : key_class (fst x) = c).
  { destruct acc as [|y0 acc0]; [contradiction|].
    rewrite (insert_sorted_head _ _ _ _ Ha). apply Hacc. left. reflexivity. }
  destruct Hz as [<-|Hz]; [assumption|].
  apply (IH acc' out x c H).
  - apply (insert_sorted_In _ _ _ Ha). left. reflexivity.
  - intros w Hw. apply (insert_sorted_In _ _ _ Ha) in Hw.
    destruct Hw as [->|Hw]; auto.
  - assumption.
Qed.

Lemma sort_from_nil_uniform l out a b :
  sort_from [] l = Ok out -> In a l -> In b l ->
  key_class (fst a) = key_class (fst b).
Proof.
  destruct l as [|x rest]; simpl; [tauto|]. intros H Ha Hb.
  assert (U : forall z, In z rest -> key_class (fst z) = key_class (fst x)).
  { apply (sort_from_uniform rest [x] out x (key_class (fst x)) H).
    - left. reflexivity.
    - intros z [<-|[]]. reflexivity. }
  destruct Ha as [<-|Ha], Hb as [<-|Hb];
    rewrite ?(U _ Ha), ?(U _ Hb); reflexivity.
Qed.

(** Sorting a list that holds keys of two kinds raises TypeError, in
    either direction. *)
Lemma list_sort_mixed reverse l a b :
  In a l -> In b l -> key_class (fst a) <> key_class (fst b) ->
  list_sort reverse l = Raise TypeError.
Proof.
  intros Ha Hb Hne. unfold list_sort. destruct reverse.
  - destruct (sort_from [] (rev l)) as [out|e] eqn:E; simpl.
    + exfalso. apply Hne.
      apply (sort_from_nil_uniform (rev l) out a b E); apply in_rev;
        rewrite rev_involutive; assumption.
    + f_equal. eapply sort_from_Raise. eassumption.
  - destruct (sort_from [] l) as [out|e] eqn:E.
    + exfalso. apply Hne. exact (sort_from_nil_uniform l out a b E Ha Hb).
    + f_equal. eapply sort_from_Raise. eassumption.
Qed.

End SortFacts.

Section SortColumn.

Context `{Lib : Library}.

(** A column with a cell that [float] reads and a text cell that it
    does not read cannot be sorted: the call raises TypeError. *)
Lemma sort_column_mixed col reverse tv r1 r2 f s :
  mem col (columns tv) = true ->
  In r1 (rows tv) -> In r2 (rows tv) ->
  float (cell r1 col) = Some f ->
  cell r2 col = VStr s -> float (VStr s) = None ->
  sort_column col reverse tv = Raise TypeError.
Proof.
  intros Hc H1 H2 Hf Hs Hn. unfold sort_column. rewrite Hc.
  rewrite (list_sort_mixed reverse _
             (try_sort (cell r1 col), r1) (try_sort (cell r2 col), r2)).
  - reflexivity.
  - rewrite map_map. simpl. apply in_map_iff. exists r1. tauto.
  - rewrite map_map. simpl. apply in_map_iff. exists r2. tauto.
  - simpl. unfold try_sort. rewrite Hf, Hs, Hn. simpl. discriminate.
Qed.

End SortColumn.

(** C2, at the column "10", "2", "abc": the ascending sort raises
    TypeError, since the key 2.0 and the key "abc" have no order; the
    rows are not reordered. *)
Theorem sort_column_mixed_column :
  map (fun r => cell r "KVP") (rows mixed_tree)
  = [VStr "10"; VStr "2"; VStr "abc"]
  /\ sort_column "KVP" false mixed_tree = Raise TypeError
  /\ sort_column "KVP" true mixed_tree = Raise TypeError.
Proof. repeat split; vm_compute; reflexivity. Qed.

(** A column of numbers is sorted by magnitude, and the next click
    sorts it the other way round. *)
Example sort_column_numbers :
  exists tv next,
    sort_column "KVP" false kvp_tree = Ok (tv, next)
    /\ next = true
    /\ map (fun r => cell r "KVP") (rows tv)
       = [VStr "80"; VStr "100"; VStr "120"]
    /\ exists tv' next',
         sort_column "KVP" next tv = Ok (tv', next')
         /\ next' = false
         /\ map (fun r => cell r "KVP") (rows tv')
            = [VStr "120"; VStr "100"; VStr "80"].
Proof.
  eexists. eexists. split; [vm_compute; reflexivity|].
  split; [reflexivity|]. split; [vm_compute; reflexivity|].
  eexists. eexists. split; [vm_compute; reflexivity|].
  split; [reflexivity|]. vm_compute. reflexivity.
Qed.

(** A column of text is sorted without regard to case. *)
Example sort_column_text :
  exists tv next,
    sort_column "StationName" false
      (column_frame "StationName" [VStr "beta"; VStr "Alpha"; VStr "Gamma"])
    = Ok (tv, next)
    /\ map (fun r => cell r "StationName") (rows tv)
       = [VStr "Alpha"; VStr "beta"; VStr "Gamma"].
Proof.
  eexists. eexists. split; vm_compute; reflexivity.
Qed.

(** ** Multiple exposures *)

Lemma value_eqb_refl v : isna v = false -> value_eqb v v = true.
Proof.
  destruct v as [|[q| | |]|s|t| |z]; simpl; intros H; try discriminate;
    try reflexivity.
  - apply Qeq_bool_refl.
  - apply String.eqb_refl.
  - rewrite !Z.eqb_refl. reflexivity.
  - apply Qeq_bool_refl.
Qed.

Lemma Qeq_bool_swap x y : Qeq_bool x y = Qeq_bool y x.
Proof.
  destruct (Qeq_bool x y) eqn:E, (Qeq_bool y x) eqn:E'; try reflexivity.
  - apply Qeq_bool_sym in E. congruence.
  - apply Qeq_bool_sym in E'. congruence.
Qed.

Lemma value_eqb_sym a b : value_eqb a b = value_eqb b a.
Proof.
  destruct a as [|[q| | |]|s|t| |z], b as [|[q'| | |]|s'|t'| |z']; simpl;
    try reflexivity; try apply Qeq_bool_swap.
  - apply String.eqb_sym.
  - rewrite (Z.eqb_sym (ts_day t)), (Z.eqb_sym (ts_time t)). reflexivity.
Qed.

Lemma value_eqb_trans a b c :
  value_eqb a b = true -> value_eqb b c = true -> value_eqb a c = true.
Proof.
  destruct a as [|[q| | |]|s|t| |z], b as [|[q'| | |]|s'|t'| |z']; simpl;
    try discriminate;
    destruct c as [|[q''| | |]|s''|t''| |z'']; simpl; try discriminate; auto;
    try apply Qeq_bool_trans.
  - intros H1 H2. apply String.eqb_eq in H1, H2. subst. apply String.eqb_refl.
  - intros H1 H2. apply andb_true_iff in H1, H2.
    destruct H1 as [H1 H1'], H2 as [H2 H2'].
    apply Z.eqb_eq in H1, H1', H2, H2'.
    rewrite H1, H2, H1', H2', !Z.eqb_refl. reflexivity.
Qed.

Lemma same_group_refl r : complete r = true -> same_group r r = true.
Proof.
  unfold complete, same_group. intros H. apply andb_true_iff in H.
  destruct H as [H1 H2]. apply negb_true_iff in H1, H2.
  rewrite !value_eqb_refl by assumption. reflexivity.
Qed.

Lemma same_group_sym a b : same_group a b = same_group b a.
Proof.
  unfold same_group.
  rewrite (value_eqb_sym (cell a "PatientID")),
          (value_eqb_sym (cell a "ContentDate")).
  reflexivity.
Qed.

Lemma same_group_trans a b c :
  same_group a b = true -> same_group b c = true -> same_group a c = true.
Proof.
  unfold same_group. intros H1 H2. apply andb_true_iff in H1, H2.
  destruct H1 as [P1 D1], H2 as [P2 D2].
  rewrite (value_eqb_trans _ _ _ P1 P2), (value_eqb_trans _ _ _ D1 D2).
  reflexivity.
Qed.

(** Two rows of one group see the same rows as their group. *)
Lemma same_group_congr a b x :
  same_group a b = true -> same_group a x = same_group b x.
Proof.
  intros H. destruct (same_group b x) eqn:E.
  - exact (same_group_trans _ _ _ H E).
  - destruct (same_group a x) eqn:E'; [|reflexivity].
    rewrite same_group_sym in H.
    rewrite (same_group_trans _ _ _ H E') in E. discriminate.
Qed.

Lemma group_size_congr l a b :
  same_group a b = true -> group_size l a = group_size l b.
Proof.
  intros H. unfold group_size. f_equal. apply filter_ext.
  intros x. apply same_group_congr. assumption.
Qed.

Lemma group_heads_In seen l h : In h (group_heads seen l) -> In h l.
Proof.
  revert seen. induction l as [|x rest IH]; intros seen; simpl; [tauto|].
  destruct (existsb (same_group x) seen).
  - intros H. right. eapply IH. eassumption.
  - intros [<-|H]; [left; reflexivity | right; eapply IH; eassumption].
Qed.

(** Every complete row has the head of its group among the heads,
    unless its group was seen before. *)
Lemma group_heads_cover l : forall seen r,
  In r l -> complete r = true ->
  existsb (same_group r) seen = true
  \/ exists h, In h (group_heads seen l) /\ same_group r h = true.
Proof.
  induction l as [|x rest IH]; intros seen r Hr Hc; simpl in *; [tauto|].
  destruct (existsb (same_group x) seen) eqn:E.
  - destruct Hr as [->|Hr]; [left; assumption | apply IH; assumption].
  - destruct Hr as [->|Hr].
    + right. exists r. split; [left; reflexivity | apply same_group_refl; assumption].
    + destruct (IH (x :: seen) r Hr Hc) as [H|[h [Hh Hs]]].
      * simpl in H. apply orb_true_iff in H. destruct H as [H|H].
        -- right. exists x. split; [left; reflexivity | assumption].
        -- left. assumption.
      * right. exists h. split; [right|]; assumption.
Qed.

Section Exposures.

Context `{Lib : Library}.

Lemma cell_insert_eq (r : dict) col v : cell (<[col := v]> r) col = v.
Proof. unfold cell. rewrite lookup_insert_eq. reflexivity. Qed.

Lemma cell_insert_ne (r : dict) col col' v :
  col <> col' -> cell (<[col := v]> r) col' = cell r col'.
Proof. intros H. unfold cell. rewrite lookup_insert_ne by assumption. reflexivity. Qed.

(** The rows that go into the grouping: those with a patient
    identifier and a date that parses, with the date cut to the day. *)
Lemma prepared_rows tv r :
  In r (rows (prepared tv)) <->
  exists r0 t,
    In r0 (rows tv)
    /\ isna (cell r0 "PatientID") = false
    /\ to_datetime (strip (astype_str (cell r0 "ContentDate"))) = Some t
    /\ r = <["ContentDate" := VTimestamp (normalize t)]> r0.
Proof.
  unfold prepared, select. simpl. rewrite filter_In, in_map_iff. split.
  - intros [[r0 [<- Hr0]] Hc]. unfold complete in Hc.
    rewrite cell_insert_eq, cell_insert_ne in Hc by discriminate.
    apply andb_true_iff in Hc. destruct Hc as [Hp Hd].
    apply negb_true_iff in Hp, Hd. unfold parse_content_date in *.
    destruct (to_datetime (strip (astype_str (cell r0 "ContentDate"))))
      as [t|] eqn:Et; [|discriminate].
    exists r0, t. repeat split; assumption.
  - intros [r0 [t [Hr0 [Hp [Ht ->]]]]]. split.
    + exists r0. unfold parse_content_date. rewrite Ht.
      split; [reflexivity | assumption].
    + unfold complete.
      rewrite cell_insert_eq, cell_insert_ne by discriminate.
      rewrite Hp. reflexivity.
Qed.

Lemma prepared_complete tv r : In r (rows (prepared tv)) -> complete r = true.
Proof.
  unfold prepared, select. simpl. rewrite filter_In. tauto.
Qed.

(** The groups kept are those of three rows or more, each listed with
    the key and the size of a row of the frame. *)
Lemma multi_exposures_In df e :
  In e (multi_exposures df) ->
  (3 <= snd e)%nat
  /\ exists h, In h (rows df)
               /\ e = (cell h "PatientID", cell h "ContentDate",
                       group_size (rows df) h).
Proof.
  unfold multi_exposures, exposure_counts. rewrite filter_In, in_map_iff.
  intros [[h [<- Hh]] Hn]. apply Nat.leb_le in Hn. split; [assumption|].
  exists h. split; [eapply group_heads_In; eassumption | reflexivity].
Qed.

(** The rows kept by the merge are the rows of groups of three or
    more. *)
Lemma merge_rows df r :
  (forall x, In x (rows df) -> complete x = true) ->
  In r (rows (merge df (multi_exposures df))) <->
  In r (rows df) /\ (3 <= group_size (rows df) r)%nat.
Proof.
  intros Hall. unfold merge, select. simpl.
  rewrite filter_In, existsb_exists. split.
  - intros [Hr [e [He Hk]]]. split; [assumption|].
    apply multi_exposures_In in He. destruct He as [Hn [h [Hh ->]]].
    simpl in *. fold (same_group r h) in Hk.
    rewrite (group_size_congr _ r h Hk). assumption.
  - intros [Hr Hn]. split; [assumption|].
    destruct (group_heads_cover (rows df) [] r Hr (Hall r Hr))
      as [H|[h [Hh Hs]]]; [discriminate|].
    exists (cell h "PatientID", cell h "ContentDate", group_size (rows df) h).
    split; [|exact Hs].
    unfold multi_exposures, exposure_counts. rewrite filter_In, in_map_iff.
    split; [exists h; tauto|].
    cbn [snd]. apply Nat.leb_le. rewrite <- (group_size_congr _ r h Hs).
    assumption.
Qed.

Lemma merge_nil df : rows (merge df []) = [].
Proof.
  unfold merge, select. simpl.
  induction (rows df) as [|x l IH]; simpl; auto.
Qed.

(** From the frame [tv] on: the rows grouped are those whose patient
    identifier is not NA and whose date parses; a row is in the summary
    exactly when its (patient, day) group has three rows or more; the
    groups reported are exactly those, each with its size. *)
Theorem show_multiple_exposures_table_threshold tv :
  mem "ContentDate" (columns tv) = true ->
  mem "PatientID" (columns tv) = true ->
  let df := prepared tv in
  let outcome := show_multiple_exposures_table tv in
  (forall r, In r (rows df) <->
     exists r0 t,
       In r0 (rows tv)
       /\ isna (cell r0 "PatientID") = false
       /\ to_datetime (strip (astype_str (cell r0 "ContentDate"))) = Some t
       /\ r = <["ContentDate" := VTimestamp (normalize t)]> r0)
  /\ (forall r, In r (shown_rows outcome) <->
        In r (rows df) /\ (3 <= group_size (rows df) r)%nat)
  /\ (forall lmd groups,
        outcome = ExposuresShown lmd groups ->
        forall e, In e groups ->
          (3 <= snd e)%nat
          /\ exists h, In h (rows df)
                       /\ e = (cell h "PatientID", cell h "ContentDate",
                               group_size (rows df) h))
  /\ (outcome = ExposuresNone \/ outcome = ExposuresNoData <->
      forall r, In r (rows df) -> (group_size (rows df) r < 3)%nat).
Proof.
  intros Hd Hp df outcome.
  assert (M : forall r,
             In r (rows (merge df (multi_exposures df))) <->
             In r (rows df) /\ (3 <= group_size (rows df) r)%nat)
    by (intros r; apply merge_rows, prepared_complete).
  assert (E : shown_rows outcome = rows (merge df (multi_exposures df))
              /\ (outcome = ExposuresNone \/ outcome = ExposuresNoData
                  <-> rows (merge df (multi_exposures df)) = [])
              /\ (forall lmd groups, outcome = ExposuresShown lmd groups ->
                                     groups = multi_exposures df)).
  { clear M. subst outcome df. unfold show_multiple_exposures_table.
    destruct (rows tv) as [|r0 rest] eqn:Er.
    - assert (P : prepared tv = {| columns := columns tv; rows := [] |})
        by (unfold prepared, select; rewrite Er; reflexivity).
      rewrite P. simpl.
      split; [reflexivity|]. split; [split; auto | discriminate].
    - rewrite Hd, Hp. cbn [negb orb].
      destruct (multi_exposures (prepared tv)) as [|e m] eqn:Em.
      + cbn [shown_rows]. rewrite merge_nil.
        split; [reflexivity|]. split; [split; auto | discriminate].
      + cbn [shown_rows]. split; [reflexivity|]. split.
        * split; [intros [H|H]; discriminate|].
          intros Hnil. exfalso.
          assert (He : In e (multi_exposures (prepared tv)))
            by (rewrite Em; left; reflexivity).
          apply multi_exposures_In in He.
          destruct He as [Hn [h [Hh He]]].
          assert (Hin : In h (rows (merge (prepared tv)
                                       (multi_exposures (prepared tv))))).
          { apply merge_rows; [apply prepared_complete|].
            split; [assumption|]. rewrite He in Hn. exact Hn. }
          rewrite Em, Hnil in Hin. exact Hin.
        * intros lmd groups H. inversion H; subst. reflexivity. }
  destruct E as [E1 [E2 E3]].
  split; [apply prepared_rows|]. split; [|split].
  - intros r. rewrite E1. apply M.
  - intros lmd groups H e He. rewrite (E3 _ _ H) in He.
    apply multi_exposures_In. assumption.
  - rewrite E2. split.
    + intros Hnil r Hr.
      destruct (Nat.lt_ge_cases (group_size (rows df) r) 3) as [?|Hge];
        [assumption|].
      exfalso. assert (Hin : In r (rows (merge df (multi_exposures df))))
        by (apply M; tauto).
      rewrite Hnil in Hin. exact Hin.
    + intros Hall.
      assert (N : forall r, ~ In r (rows (merge df (multi_exposures df)))).
      { intros r Hin. apply M in Hin. destruct Hin as [Hr Hn].
        specialize (Hall r Hr). lia. }
      destruct (rows (merge df (multi_exposures df))) as [|r l];
        [reflexivity|].
      exfalso. apply (N r). left. reflexivity.
Qed.

Lemma render_row_lookup cols (r : dict) col :
  In col cols -> render_row cols r !! col = Some (rendered (cell r col)).
Proof.
  unfold render_row. induction cols as [|c rest IH]; simpl; [tauto|].
  intros H. destruct (decide (c = col)) as [->|Hne].
  - apply lookup_insert_eq.
  - rewrite lookup_insert_ne by assumption.
    destruct H as [H|H]; [contradiction | apply IH; assumption].
Qed.

(** The table keeps texts, and a value read from it is a text or an
    int: no cell of the frame rebuilt from the table is NA. *)
Lemma item_values_notna df r col :
  In r (rows (item_values (rendered_frame df))) ->
  mem col (columns df) = true ->
  isna (cell r col) = false.
Proof.
  unfold item_values, rendered_frame. cbn [rows columns]. intros H Hc.
  apply in_map_iff in H. destruct H as [r1 [<- H]].
  apply in_map_iff in H. destruct H as [r0 [<- _]]. apply mem_In in Hc.
  unfold cell at 1. rewrite lookup_fmap, (render_row_lookup _ _ _ Hc).
  simpl. destruct (py_int _); reflexivity.
Qed.

(** So [dropna] drops no row of that frame for its patient identifier:
    the rows grouped are all those whose date parses. *)
Lemma prepared_item_values df r :
  mem "PatientID" (columns df) = true ->
  In r (rows (prepared (item_values (rendered_frame df)))) <->
  exists r0 t,
    In r0 (rows (item_values (rendered_frame df)))
    /\ to_datetime (strip (astype_str (cell r0 "ContentDate"))) = Some t
    /\ r = <["ContentDate" := VTimestamp (normalize t)]> r0.
Proof.
  intros Hp. rewrite prepared_rows. split.
  - intros [r0 [t [H1 [_ [H3 H4]]]]]. exists r0, t. auto.
  - intros [r0 [t [H1 [H3 H4]]]]. exists r0, t.
    split; [assumption|]. split; [|split; assumption].
    apply (item_values_notna df); assumption.
Qed.

End Exposures.

Lemma show_multiple_exposures_table_threshold_witness :
  map (fun r => cell r "PatientID")
      (shown_rows (show_multiple_exposures_table exposures_tree))
  = [VStr "P1"; VStr "P1"; VStr "P1"]
  /\ forall r,
       In r (shown_rows (show_multiple_exposures_table exposures_tree)) <->
       In r (rows (prepared exposures_tree))
       /\ (3 <= group_size (rows (prepared exposures_tree)) r)%nat.
Proof.
  split; [vm_compute; reflexivity|].
  exact (proj1 (proj2 (show_multiple_exposures_table_threshold
                         exposures_tree eq_refl eq_refl))).
Defined.

(** On the sample table: the rows without patient and the rows whose
    date does not parse are not grouped; P1 has three rows on one day
    and is reported, P3 has two and P2 one and are not. *)
Example exposures_tree_groups :
  map (fun r => cell r "PatientID") (rows (prepared exposures_tree))
  = [VStr "P1"; VStr "P1"; VStr "P2"; VStr "P1"; VStr "P3"; VStr "P3"]
  /\ exposure_counts (prepared exposures_tree)
     = [(VStr "P1", VTimestamp {| ts_day := 20240101; ts_time := 0 |}, 3%nat);
        (VStr "P2", VTimestamp {| ts_day := 20240101; ts_time := 0 |}, 1%nat);
        (VStr "P3", VTimestamp {| ts_day := 20240102; ts_time := 0 |}, 2%nat)]
  /\ multi_exposures (prepared exposures_tree)
     = [(VStr "P1", VTimestamp {| ts_day := 20240101; ts_time := 0 |}, 3%nat)].
Proof. repeat split; vm_compute; reflexivity. Qed.

(** C4, at a folder of three documents of 1 January 2024 that carry no
    PatientID: the identifier is missing in the three rows of the data;
    the table holds the text [nan] for it and hands that text back, so
    [dropna] keeps the three rows and the summary reports them as one
    patient with three exposures on that day, from the table as loaded
    and from the table after the filters are cleared. *)
Theorem show_multiple_exposures_table_missing_patient :
  map (fun r => cell r "PatientID") (rows (data anonymous_app))
  = [VFloat Nan; VFloat Nan; VFloat Nan]
  /\ map (fun r => cell r "PatientID")
         (rows (item_values (tree anonymous_app)))
     = [VStr "nan"; VStr "nan"; VStr "nan"]
  /\ shown_groups
       (show_multiple_exposures_table (item_values (tree anonymous_app)))
     = [(VStr "nan", VTimestamp {| ts_day := 20240101; ts_time := 0 |},
         3%nat)]
  /\ length (shown_rows
               (show_multiple_exposures_table
                  (item_values (tree anonymous_app))))
     = 3%nat
  /\ shown_groups
       (show_multiple_exposures_table
          (item_values (tree (fst (clear_all_filters anonymous_app)))))
     = [(VStr "nan", VTimestamp {| ts_day := 20240101; ts_time := 0 |},
         3%nat)].
Proof.
  split; [vm_compute; reflexivity|].
  split; [vm_compute; reflexivity|].
  split; [vm_compute; reflexivity|].
  split; vm_compute; reflexivity.
Qed.

(* ===================================================================== *)
(** * Further properties *)
(* ===================================================================== *)

Open Scope list_scope.

(** ** The extractor *)

Lemma parse_sequence_app s1 s2 d :
  parse_sequence (s1 ++ s2) d = bind (parse_sequence s1 d) (parse_sequence s2).
Proof.
  revert d. induction s1 as [|it rest IH]; intros d; simpl; [reflexivity|].
  destruct (parse_item it d) as [d'|e]; simpl; [apply IH | reflexivity].
Qed.

(** Last write wins: a leaf that gives a value for a target concept,
    visited after a sequence, replaces whatever the sequence stored
    under that concept and leaves the other keys as they were. *)
Theorem parse_sequence_last_write seq cns mvs tv dt uid pn cn v d d1 :
  parse_sequence seq d = Ok d1 ->
  concept_name_of cns = Ok (Some cn) ->
  mem cn target_concepts = true ->
  read_value mvs tv dt uid pn = Ok (Some v) ->
  parse_sequence (seq ++ [MkItem cns mvs tv dt uid pn None]) d
  = Ok (<[cn := v]> d1).
Proof.
  intros Hseq Hcn Hm Hv. rewrite parse_sequence_app, Hseq.
  cbn [bind parse_sequence]. rewrite parse_item_eq. unfold visit.
  rewrite Hcn. cbn [bind]. rewrite (is_target_Some cn Hm), Hv. reflexivity.
Qed.

Lemma parse_sequence_last_write_witness :
  parse_sequence ([kvp_item] ++ [kvp_text_item]) ∅
  = Ok (<["KVP" := VStr "80"]> (<["KVP" := VFloat (Finite (120 # 1))]> ∅)).
Proof.
  refine (parse_sequence_last_write [kvp_item]
            (Some [{| CodeMeaning := Some "KVP" |}]) None (Some "80")
            None None None "KVP" (VStr "80") ∅
            (<["KVP" := VFloat (Finite (120 # 1))]> ∅) _ _ _ _);
    vm_compute; reflexivity.
Defined.

(** An item without ConceptNameCodeSequence, or whose first code item
    has no CodeMeaning, an empty one or one outside the dictionary,
    stores nothing and raises nothing, whatever values it carries (an
    empty MeasuredValueSequence included); its nested items are visited
    all the same.  An item whose ConceptNameCodeSequence is there but
    empty raises IndexError. *)
Theorem parse_item_not_target cns mvs tv dt uid pn cs data :
  (forall name,
     concept_name_of cns = Ok name ->
     is_target name = false ->
     parse_item (MkItem cns mvs tv dt uid pn cs) data = descend cs data)
  /\ (cns = Some [] ->
      parse_item (MkItem cns mvs tv dt uid pn cs) data = Raise IndexError).
Proof.
  split.
  - intros name Hn H. rewrite parse_item_eq. unfold visit.
    rewrite Hn. cbn [bind]. rewrite H. reflexivity.
  - intros ->. rewrite parse_item_eq. reflexivity.
Qed.

Lemma parse_item_not_target_witness :
  parse_item
    (MkItem (Some [{| CodeMeaning := Some "Comment" |}]) (Some [])
            (Some "free text") None None None (Some [kvp_item])) ∅
  = descend (Some [kvp_item]) ∅
  /\ parse_item
       (MkItem (Some []) None (Some "free text") None None None
               (Some [kvp_item])) ∅
     = Raise IndexError.
Proof.
  split.
  - exact (proj1 (parse_item_not_target
                    (Some [{| CodeMeaning := Some "Comment" |}]) (Some [])
                    (Some "free text") None None None (Some [kvp_item]) ∅)
                 (Some "Comment") eq_refl eq_refl).
  - exact (proj2 (parse_item_not_target
                    (Some []) None (Some "free text") None None None
                    (Some [kvp_item]) ∅)
                 eq_refl).
Defined.

(** An item of a target concept with an empty MeasuredValueSequence
    raises IndexError, even when it also carries a text; and an
    exception raised at an item ends the extraction of the document
    with that exception. *)
Theorem extract_targeted_data_raises ds pre it post d e :
  ds_ContentSequence ds = Some (pre ++ it :: post) ->
  parse_sequence pre ∅ = Ok d ->
  parse_item it d = Raise e ->
  extract_targeted_data ds = Raise e.
Proof.
  intros Hs Hpre Hit. unfold extract_targeted_data.
  rewrite Hs, parse_sequence_app, Hpre. simpl. rewrite Hit. reflexivity.
Qed.

Lemma extract_targeted_data_raises_witness :
  extract_targeted_data broken_document = Raise IndexError.
Proof.
  apply (extract_targeted_data_raises broken_document [kvp_item] broken_item
           [] (<["KVP" := VFloat (Finite (120 # 1))]> ∅) IndexError);
    vm_compute; reflexivity.
Defined.

Theorem parse_item_empty_measured cns tv dt uid pn cs data cn :
  concept_name_of cns = Ok (Some cn) ->
  mem cn target_concepts = true ->
  parse_item (MkItem cns (Some []) tv dt uid pn cs) data = Raise IndexError.
Proof.
  intros Hcn Hm. rewrite parse_item_eq. unfold visit.
  rewrite Hcn. cbn [bind]. rewrite (is_target_Some cn Hm). reflexivity.
Qed.

Lemma parse_item_empty_measured_witness :
  parse_item broken_item ∅ = Raise IndexError.
Proof.
  exact (parse_item_empty_measured
           (Some [{| CodeMeaning := Some "KVP" |}]) (Some "80") None None None
           None ∅ "KVP" eq_refl eq_refl).
Defined.

Lemma fold_top_level_lookup ds tags : forall (data : dict) k,
  fold_left (top_level_step ds) tags data !! k
  = match ds_attrs ds !! k with
    | Some (Some s) => if mem k tags then Some (VStr s) else data !! k
    | _ => data !! k
    end.
Proof.
  induction tags as [|t rest IH]; intros data k; simpl.
  - destruct (ds_attrs ds !! k) as [[s|]|]; reflexivity.
  - rewrite IH. unfold top_level_step.
    destruct (String.eqb_spec k t) as [->|Hne]; simpl.
    + destruct (ds_attrs ds !! t) as [[s|]|]; try reflexivity.
      rewrite lookup_insert_eq. destruct (mem t rest); reflexivity.
    + destruct (ds_attrs ds !! k) as [[s|]|];
        destruct (ds_attrs ds !! t) as [[s'|]|];
        rewrite ?lookup_insert_ne by congruence; reflexivity.
Qed.

(** The pass over the top-level attributes has the last word: a target
    concept that is an attribute of the document and can be read is
    stored as its text, whatever the tree gave for it; every other key
    keeps what the traversal of the tree stored. *)
Theorem extract_targeted_data_lookup ds data :
  extract_targeted_data ds = Ok data ->
  exists tree,
    descend (ds_ContentSequence ds) ∅ = Ok tree
    /\ (forall tag s,
          In tag target_concepts ->
          ds_attrs ds !! tag = Some (Some s) ->
          data !! tag = Some (VStr s))
    /\ (forall k,
          ~ In k target_concepts
          \/ ds_attrs ds !! k = None \/ ds_attrs ds !! k = Some None ->
          data !! k = tree !! k).
Proof.
  unfold extract_targeted_data. intros H. bind_inv H. rename a into tree.
  inversion H; subst; clear H. exists tree. split; [exact Ha|].
  unfold top_level. split.
  - intros tag s Ht Hs. rewrite fold_top_level_lookup, Hs.
    apply mem_In in Ht. rewrite Ht. reflexivity.
  - intros k Hk. rewrite fold_top_level_lookup.
    destruct Hk as [Hk|[Hk|Hk]].
    + apply mem_false in Hk. rewrite Hk.
      destruct (ds_attrs ds !! k) as [[s|]|]; reflexivity.
    + rewrite Hk. reflexivity.
    + rewrite Hk. reflexivity.
Qed.

Lemma extract_targeted_data_lookup_witness :
  value_or ∅ (extract_targeted_data dated_document) !! "ContentDate"
  = Some (VStr "20240101").
Proof.
  destruct (extract_targeted_data_lookup dated_document
              (value_or ∅ (extract_targeted_data dated_document)))
    as [tree [_ [H _]]].
  - apply Ok_value_or. vm_compute. reflexivity.
  - apply (H "ContentDate" "20240101").
    + apply mem_In. reflexivity.
    + vm_compute. reflexivity.
Defined.

(** ** The loader *)

Lemma collect_dcm_files files : forall acc,
  collect files acc = collect (dcm_files files) acc.
Proof.
  unfold dcm_files.
  induction files as [|f rest IH]; intros acc; simpl; [reflexivity|].
  destruct (endswith (fname f) ".dcm") eqn:E; simpl.
  - rewrite E. destruct (dcmread f) as [ds|e]; simpl; [|reflexivity].
    destruct (extract_targeted_data ds) as [info|e]; simpl; [|reflexivity].
    destruct (truthy info); apply IH.
  - apply IH.
Qed.

(** Files whose name does not end in [.dcm] are never read: the
    collection is the one built from the other files alone, whatever
    reading the skipped files would give. *)
Theorem load_dicom_data_skips_other_files files :
  load_dicom_data files = load_dicom_data (dcm_files files).
Proof.
  unfold load_dicom_data. rewrite collect_dcm_files. reflexivity.
Qed.

Lemma collect_app pre post : forall acc,
  collect (pre ++ post) acc = bind (collect pre acc) (collect post).
Proof.
  induction pre as [|f rest IH]; intros acc; simpl; [reflexivity|].
  destruct (endswith (fname f) ".dcm"); [|apply IH].
  destruct (dcmread f) as [ds|e]; simpl; [|reflexivity].
  destruct (extract_targeted_data ds) as [info|e]; simpl; [|reflexivity].
  destruct (truthy info); apply IH.
Qed.

(** The first [.dcm] file that cannot be read, or whose extraction
    raises, ends the load with that exception: no collection is built,
    whatever the files before and after it hold. *)
Theorem load_dicom_data_aborts pre f post infos e :
  Forall2 (fun f info => extract_file f = Ok info) (dcm_files pre) infos ->
  endswith (fname f) ".dcm" = true ->
  extract_file f = Raise e ->
  load_dicom_data (pre ++ f :: post) = Raise e.
Proof.
  intros Hpre Hname Hf. unfold load_dicom_data.
  rewrite collect_app, (collect_complete pre infos [] Hpre).
  cbn [bind collect]. rewrite Hname. unfold extract_file in Hf.
  destruct (dcmread f) as [ds|e']; simpl in *.
  - rewrite Hf. reflexivity.
  - inversion Hf; subst. reflexivity.
Qed.

Lemma load_dicom_data_aborts_witness :
  load_dicom_data
    ([{| fname := "a.dcm"; dcmread := Ok sample_document |}]
     ++ {| fname := "b.dcm"; dcmread := Ok broken_document |}
     :: [{| fname := "c.dcm"; dcmread := Ok sample_document |}])
  = Raise IndexError.
Proof.
  apply (load_dicom_data_aborts
           [{| fname := "a.dcm"; dcmread := Ok sample_document |}]
           {| fname := "b.dcm"; dcmread := Ok broken_document |}
           [{| fname := "c.dcm"; dcmread := Ok sample_document |}]
           [value_or ∅ (extract_targeted_data sample_document)]
           IndexError).
  - constructor; [|constructor]. unfold extract_file. cbn [dcmread bind].
    apply Ok_value_or. vm_compute. reflexivity.
  - vm_compute. reflexivity.
  - vm_compute. reflexivity.
Defined.

(** ** The view of [apply_all_filters] *)

Lemma ts_leb_refl t : ts_leb t t = true.
Proof.
  unfold ts_leb. rewrite Z.eqb_refl, Z.leb_refl, orb_true_r. reflexivity.
Qed.

Section View.

Context `{Lib : Library}.

Lemma date_bound_select entry within error df :
  fst (date_bound entry within error df)
  = select (within_entry entry within) df.
Proof.
  unfold date_bound, within_entry.
  destruct (String.eqb entry ""); simpl; [symmetry; apply select_true|].
  destruct (to_datetime_ymd (VStr entry)); simpl;
    [reflexivity | symmetry; apply select_true].
Qed.

Lemma filtered_frame_view base s e filters df msgs :
  filtered_frame base s e filters = Ok (df, msgs) ->
  df = {| columns := columns base;
          rows := List.filter (kept base s e filters)
                              (map with_date (rows base)) |}.
Proof.
  intros H. apply filtered_frame_inv in H.
  destruct H as [_ [d1 [d2 [E1 [E2 [_ ->]]]]]]. simpl in E1, E2.
  rewrite date_bound_select in E1. rewrite date_bound_select in E2.
  subst d2 d1. rewrite !select_select. unfold select. simpl. f_equal.
  apply filter_ext. intros r. unfold kept. rewrite andb_assoc. reflexivity.
Qed.

End View.

Lemma forallb_Permutation {A} (f : A -> bool) l l' :
  Permutation l l' -> forallb f l = forallb f l'.
Proof.
  induction 1 as [|x l l' _ IH|x y l|l l' l'' _ IH1 _ IH2]; simpl.
  - reflexivity.
  - rewrite IH. reflexivity.
  - destruct (f x), (f y); reflexivity.
  - congruence.
Qed.

Section ViewFacts.

Context `{Lib : Library}.

Lemma apply_all_filters_frame app app' msgs :
  apply_all_filters app = (app', Ok msgs) ->
  filtered_data app'
  = {| columns := columns (data app);
       rows := List.filter
                 (kept (data app) (start_date_entry app)
                       (end_date_entry app) (active_filters app))
                 (map with_date (rows (data app))) |}.
Proof.
  intros H. apply apply_all_filters_Ok in H. destruct H as [H _].
  apply (filtered_frame_view _ _ _ _ _ _ H).
Qed.

(** The view is, in the order of the data, exactly the rows of the data
    (date parsed) that are within the bounds of the two entries and pass
    every text filter on a column the data has; its columns are those
    of the data. *)
Theorem apply_all_filters_view app app' msgs :
  apply_all_filters app = (app', Ok msgs) ->
  filtered_data app'
  = {| columns := columns (data app);
       rows := List.filter
                 (kept (data app) (start_date_entry app)
                       (end_date_entry app) (active_filters app))
                 (map with_date (rows (data app))) |}.
Proof.
  intros H. apply apply_all_filters_Ok in H. destruct H as [H _].
  apply (filtered_frame_view _ _ _ _ _ _ H).
Qed.

(** The date bounds are inclusive: a record dated exactly on the lower
    and on the upper bound is in the view when it passes the text
    filters. *)
Theorem apply_all_filters_bounds_inclusive app app' msgs r0 t :
  apply_all_filters app = (app', Ok msgs) ->
  In r0 (rows (data app)) ->
  to_datetime_ymd (cell r0 "ContentDate") = Some t ->
  to_datetime_ymd (VStr (strip (start_date_entry app))) = Some t ->
  to_datetime_ymd (VStr (strip (end_date_entry app))) = Some t ->
  passes (columns (data app)) (active_filters app) (with_date r0) = true ->
  In (with_date r0) (rows (filtered_data app')).
Proof.
  intros H Hr0 Ht Hs He Hp. rewrite (apply_all_filters_frame _ _ _ H).
  simpl. apply filter_In. split; [apply in_map; assumption|].
  unfold kept, within_entry. rewrite Hs, He, Hp.
  unfold date_ge, date_le. rewrite with_date_cell. unfold coerce_datetime.
  rewrite Ht, ts_leb_refl.
  destruct (String.eqb (strip (start_date_entry app)) "");
    destruct (String.eqb (strip (end_date_entry app)) ""); reflexivity.
Qed.

Lemma filtered_frame_Permutation base s e filters filters' :
  Permutation filters filters' ->
  filtered_frame base s e filters = filtered_frame base s e filters'.
Proof.
  intros HP. unfold filtered_frame.
  destruct (map_column "ContentDate" coerce_datetime base) as [d0|err];
    simpl; [|reflexivity].
  destruct (date_bound (strip s) date_ge start_error d0) as [d1 m1].
  destruct (date_bound (strip e) date_le end_error d1) as [d2 m2].
  rewrite !dynamic_filters_spec. unfold patterns_ok.
  rewrite (forallb_Permutation _ _ _ HP).
  destruct (forallb _ filters'); simpl; [|reflexivity].
  rewrite (select_ext (passes (columns d2) filters)
                      (passes (columns d2) filters') d2); [reflexivity|].
  intros r. unfold passes. apply forallb_Permutation. assumption.
Qed.

(** The text filters commute: the filter list in another order gives
    the same view, row for row, and the same outcome. *)
Theorem apply_all_filters_order_independent app filters filters' :
  Permutation filters filters' ->
  snd (apply_all_filters (with_filters filters app))
  = snd (apply_all_filters (with_filters filters' app))
  /\ filtered_data (fst (apply_all_filters (with_filters filters app)))
     = filtered_data (fst (apply_all_filters (with_filters filters' app))).
Proof.
  intros HP. unfold apply_all_filters. simpl.
  rewrite (filtered_frame_Permutation _ _ _ _ _ HP).
  destruct (filtered_frame _ _ _ filters') as [[df m]|err]; simpl;
    split; reflexivity.
Qed.

Lemma filtered_frame_absent_column base s e filters col val :
  mem col (columns base) = false ->
  filtered_frame base s e (filters ++ [(col, val)])
  = filtered_frame base s e filters.
Proof.
  intros Hc. unfold filtered_frame.
  destruct (map_column "ContentDate" coerce_datetime base) as [d0|err] eqn:E0;
    simpl; [|reflexivity].
  assert (C0 : columns d0 = columns base).
  { unfold map_column in E0. destruct (mem "ContentDate" (columns base));
      inversion E0; reflexivity. }
  pose proof (date_bound_columns (strip s) date_ge start_error d0) as C1.
  destruct (date_bound (strip s) date_ge start_error d0) as [d1 m1].
  pose proof (date_bound_columns (strip e) date_le end_error d1) as C2.
  destruct (date_bound (strip e) date_le end_error d1) as [d2 m2].
  simpl in C1, C2.
  assert (C : mem col (columns d2) = false) by (rewrite C2, C1, C0; exact Hc).
  rewrite !dynamic_filters_spec. unfold patterns_ok, passes.
  rewrite forallb_app. simpl. rewrite C. simpl. rewrite andb_true_r.
  destruct (forallb _ filters); simpl; [|reflexivity].
  rewrite (select_ext
             (fun r => forallb (fun f => negb (mem (fst f) (columns d2))
                                         || contains (fst f) (snd f) r)
                               (filters ++ [(col, val)]))
             (passes (columns d2) filters) d2); [reflexivity|].
  intros r. unfold passes.
  rewrite forallb_app. simpl. rewrite C. simpl. rewrite andb_true_r.
  reflexivity.
Qed.

(** A filter on a column the data does not have changes nothing: the
    view and the outcome are those without it, and its pattern is never
    compiled. *)
Theorem apply_all_filters_absent_column app filters col val :
  mem col (columns (data app)) = false ->
  snd (apply_all_filters (with_filters (filters ++ [(col, val)]) app))
  = snd (apply_all_filters (with_filters filters app))
  /\ filtered_data
       (fst (apply_all_filters (with_filters (filters ++ [(col, val)]) app)))
     = filtered_data (fst (apply_all_filters (with_filters filters app))).
Proof.
  intros Hc. unfold apply_all_filters. simpl.
  rewrite (filtered_frame_absent_column _ _ _ _ _ _ Hc).
  destruct (filtered_frame _ _ _ filters) as [[df m]|err]; simpl;
    split; reflexivity.
Qed.

End ViewFacts.

Lemma apply_all_filters_view_witness :
  filtered_data (fst (apply_all_filters bounded_app))
  = {| columns := columns (data bounded_app);
       rows := List.filter
                 (kept (data bounded_app) (start_date_entry bounded_app)
                       (end_date_entry bounded_app)
                       (active_filters bounded_app))
                 (map with_date (rows (data bounded_app))) |}.
Proof.
  refine (apply_all_filters_view bounded_app
            (fst (apply_all_filters bounded_app)) [] _).
  apply pair_snd. vm_compute. reflexivity.
Defined.

Lemma apply_all_filters_bounds_inclusive_witness :
  In (with_date (reindex_row column_order (record_of "20240101" "P1" "HALO")))
     (rows (filtered_data (fst (apply_all_filters exact_app)))).
Proof.
  refine (apply_all_filters_bounds_inclusive exact_app
            (fst (apply_all_filters exact_app)) []
            (reindex_row column_order (record_of "20240101" "P1" "HALO"))
            {| ts_day := 20240101; ts_time := 0 |} _ _ _ _ _ _).
  - apply pair_snd. vm_compute. reflexivity.
  - left. reflexivity.
  - vm_compute. reflexivity.
  - vm_compute. reflexivity.
  - vm_compute. reflexivity.
  - reflexivity.
Defined.

Lemma apply_all_filters_order_independent_witness :
  filtered_data
    (fst (apply_all_filters
            (with_filters [("StationName", "halo"); ("PatientID", "p")]
                          sample_app)))
  = filtered_data
      (fst (apply_all_filters
              (with_filters [("PatientID", "p"); ("StationName", "halo")]
                            sample_app))).
Proof.
  refine (proj2 (apply_all_filters_order_independent sample_app
                   [("StationName", "halo"); ("PatientID", "p")]
                   [("PatientID", "p"); ("StationName", "halo")] _)).
  apply perm_swap.
Defined.

Lemma apply_all_filters_absent_column_witness :
  snd (apply_all_filters
         (with_filters ([("StationName", "halo")] ++ [region_filter])
                       sample_app))
  = snd (apply_all_filters (with_filters [("StationName", "halo")] sample_app)).
Proof.
  refine (proj1 (apply_all_filters_absent_column sample_app
                   [("StationName", "halo")] "Target Region" "(" _)).
  vm_compute. reflexivity.
Defined.

Lemma filter_filter {A} (p q : A -> bool) l :
  List.filter p (List.filter q l) = List.filter (fun x => q x && p x) l.
Proof.
  induction l as [|x l IH]; simpl; [reflexivity|].
  destruct (q x); simpl; [destruct (p x)|]; rewrite IH; reflexivity.
Qed.

Lemma filter_eqb_eq a b : filter_eqb a b = true -> a = b.
Proof.
  destruct a, b. unfold filter_eqb. simpl. intros H.
  apply andb_true_iff in H. destruct H as [H1 H2].
  apply String.eqb_eq in H1, H2. congruence.
Qed.

Lemma filter_eqb_refl a : filter_eqb a a = true.
Proof. unfold filter_eqb. rewrite !String.eqb_refl. reflexivity. Qed.

(** Removing a tuple just appended gives the list back, up to order. *)
Lemma list_remove_appended x l : Permutation (list_remove x (l ++ [x])) l.
Proof.
  induction l as [|y rest IH]; simpl.
  - rewrite filter_eqb_refl. constructor.
  - destruct (filter_eqb x y) eqn:E.
    + apply filter_eqb_eq in E. subst y.
      symmetry. apply Permutation_cons_append.
    + constructor. exact IH.
Qed.

Section CommandFacts.

Context `{Lib : Library}.

Lemma strip_empty : strip "" = "".
Proof. reflexivity. Qed.

Lemma date_bound_bad entry within error df :
  entry <> "" ->
  to_datetime_ymd (VStr entry) = None ->
  date_bound entry within error df = (df, [error]).
Proof.
  intros Hne Hnone. unfold date_bound. rewrite Hnone.
  destruct (String.eqb_spec entry ""); [contradiction | reflexivity].
Qed.

Lemma filtered_frame_bad_start base s e filters :
  strip s <> "" ->
  to_datetime_ymd (VStr (strip s)) = None ->
  filtered_frame base s e filters
  = match filtered_frame base "" e filters with
    | Ok (df, m) => Ok (df, start_error :: m)
    | Raise x => Raise x
    end.
Proof.
  intros Hne Hnone. unfold filtered_frame. rewrite strip_empty.
  destruct (map_column "ContentDate" coerce_datetime base) as [d0|err];
    simpl; [|reflexivity].
  rewrite (date_bound_bad _ _ _ _ Hne Hnone), ?date_bound_empty.
  destruct (date_bound (strip e) date_le end_error d0) as [d2 m2].
  destruct (dynamic_filters filters d2); reflexivity.
Qed.

Lemma filtered_frame_bad_end base s e filters :
  strip e <> "" ->
  to_datetime_ymd (VStr (strip e)) = None ->
  filtered_frame base s e filters
  = match filtered_frame base s "" filters with
    | Ok (df, m) => Ok (df, m ++ [end_error])
    | Raise x => Raise x
    end.
Proof.
  intros Hne Hnone. unfold filtered_frame. rewrite strip_empty.
  destruct (map_column "ContentDate" coerce_datetime base) as [d0|err];
    simpl; [|reflexivity].
  destruct (date_bound (strip s) date_ge start_error d0) as [d1 m1].
  rewrite (date_bound_bad _ _ _ _ Hne Hnone), ?date_bound_empty.
  destruct (dynamic_filters filters d1); simpl; [|reflexivity].
  rewrite ?app_nil_r. reflexivity.
Qed.

(** A date entry that is filled in but does not parse is reported and
    otherwise ignored: the view is the one the empty entry gives, and
    the other bound and the text filters still apply. *)
Theorem apply_all_filters_bad_bound app app' msgs :
  apply_all_filters app = (app', Ok msgs) ->
  (strip (start_date_entry app) <> "" ->
   to_datetime_ymd (VStr (strip (start_date_entry app))) = None ->
   In start_error msgs
   /\ filtered_data app'
      = filtered_data
          (fst (apply_all_filters (with_entries "" (end_date_entry app) app))))
  /\ (strip (end_date_entry app) <> "" ->
      to_datetime_ymd (VStr (strip (end_date_entry app))) = None ->
      In end_error msgs
      /\ filtered_data app'
         = filtered_data
             (fst (apply_all_filters
                     (with_entries (start_date_entry app) "" app)))).
Proof.
  intros H. apply apply_all_filters_Ok in H. destruct H as [H _].
  split; intros Hne Hnone; unfold apply_all_filters; simpl.
  - rewrite (filtered_frame_bad_start _ _ _ _ Hne Hnone) in H.
    destruct (filtered_frame (data app) "" _ _) as [[df m]|err];
      [|discriminate].
    inversion H; subst. simpl. split; [left|]; reflexivity.
  - rewrite (filtered_frame_bad_end _ _ _ _ Hne Hnone) in H.
    destruct (filtered_frame (data app) _ "" _) as [[df m]|err];
      [|discriminate].
    inversion H; subst. simpl.
    split; [apply in_or_app; right; left|]; reflexivity.
Qed.

Lemma filtered_frame_snoc base s e filters col val df m :
  filtered_frame base s e (filters ++ [(col, val)]) = Ok (df, m) ->
  exists df0,
    filtered_frame base s e filters = Ok (df0, m)
    /\ columns df = columns df0
    /\ rows df
       = List.filter (fun r => negb (mem col (columns base))
                               || contains col val r)
                     (rows df0).
Proof.
  intros H. pose proof (filtered_frame_view _ _ _ _ _ _ H) as V.
  unfold filtered_frame in *.
  destruct (map_column "ContentDate" coerce_datetime base) as [d0|err] eqn:E0;
    simpl in *; [|discriminate].
  assert (C0 : columns d0 = columns base).
  { unfold map_column in E0. destruct (mem "ContentDate" (columns base));
      inversion E0; reflexivity. }
  pose proof (date_bound_columns (strip s) date_ge start_error d0) as C1.
  pose proof (date_bound_select (strip s) date_ge start_error d0) as S1.
  destruct (date_bound (strip s) date_ge start_error d0) as [d1 m1].
  pose proof (date_bound_columns (strip e) date_le end_error d1) as C2.
  pose proof (date_bound_select (strip e) date_le end_error d1) as S2.
  destruct (date_bound (strip e) date_le end_error d1) as [d2 m2].
  simpl in C1, C2, S1, S2.
  assert (C : columns d2 = columns base) by congruence.
  rewrite dynamic_filters_spec in H. rewrite dynamic_filters_spec.
  unfold patterns_ok in *. rewrite forallb_app in H.
  destruct (forallb _ filters); simpl in *; [|discriminate].
  destruct (negb (mem col (columns d2)) || re_valid val); simpl in H;
    [|discriminate].
  inversion H; subst df m. eexists. split; [reflexivity|].
  split; [reflexivity|]. simpl. rewrite filter_filter. rewrite C.
  apply filter_ext. intros r. unfold passes. rewrite forallb_app. simpl.
  rewrite andb_true_r. reflexivity.
Qed.

(** Filters compose: the view with one more text filter is the view
    without it, narrowed by that filter alone; it never gains a row. *)
Theorem apply_all_filters_one_more app filters col val app2 msgs :
  apply_all_filters (with_filters (filters ++ [(col, val)]) app)
  = (app2, Ok msgs) ->
  exists app1,
    apply_all_filters (with_filters filters app) = (app1, Ok msgs)
    /\ rows (filtered_data app2)
       = List.filter (fun r => negb (mem col (columns (data app)))
                               || contains col val r)
                     (rows (filtered_data app1))
    /\ forall r, In r (rows (filtered_data app2)) ->
                 In r (rows (filtered_data app1)).
Proof.
  intros H. apply apply_all_filters_Ok in H. destruct H as [H _].
  simpl in H. apply filtered_frame_snoc in H.
  destruct H as [df0 [H0 [_ Hrows]]].
  unfold apply_all_filters. simpl. rewrite H0. eexists.
  split; [reflexivity|]. simpl. split; [exact Hrows|].
  intros r Hr. rewrite Hrows in Hr. apply filter_In in Hr. tauto.
Qed.

Lemma filtered_frame_bad_pattern base s e filters :
  mem "ContentDate" (columns base) = true ->
  patterns_ok (columns base) filters = false ->
  filtered_frame base s e filters = Raise ReError.
Proof.
  intros Hc Hp. unfold filtered_frame. rewrite (map_column_date base Hc).
  simpl.
  set (d0 := {| columns := columns base; rows := map with_date (rows base) |}).
  pose proof (date_bound_columns (strip s) date_ge start_error d0) as C1.
  destruct (date_bound (strip s) date_ge start_error d0) as [d1 m1].
  pose proof (date_bound_columns (strip e) date_le end_error d1) as C2.
  destruct (date_bound (strip e) date_le end_error d1) as [d2 m2].
  simpl in *. rewrite dynamic_filters_spec, C2, C1. simpl. rewrite Hp.
  reflexivity.
Qed.

(** A filter whose pattern does not compile, added on a column of the
    loaded data: the call raises and the view and the table stay as
    they were, but the filter is in the list; from then on every
    reapplication raises as well, whatever is done to the date
    entries. *)
Theorem add_dynamic_filter_bad_pattern column entry app :
  mem "ContentDate" (columns (data app)) = true ->
  mem column (columns (data app)) = true ->
  column <> "" ->
  strip entry <> "" ->
  re_valid (strip entry) = false ->
  let app' := fst (add_dynamic_filter column entry app) in
  snd (add_dynamic_filter column entry app) = Raise ReError
  /\ active_filters app' = active_filters app ++ [(column, strip entry)]
  /\ filtered_data app' = filtered_data app
  /\ tree app' = tree app
  /\ forall s e, apply_all_filters (with_entries s e app')
                 = (with_entries s e app', Raise ReError).
Proof.
  intros Hd Hc Hcol Hne Hv.
  assert (Hp : patterns_ok (columns (data app))
                 (active_filters app ++ [(column, strip entry)]) = false).
  { unfold patterns_ok. rewrite forallb_app. simpl. rewrite Hc, Hv. simpl.
    apply andb_false_r. }
  assert (E : add_dynamic_filter column entry app
              = (with_filters (active_filters app ++ [(column, strip entry)])
                              app,
                 Raise ReError)).
  { unfold add_dynamic_filter.
    destruct (String.eqb_spec column ""); [contradiction|].
    destruct (String.eqb_spec (strip entry) ""); [contradiction|].
    cbn [orb]. unfold apply_all_filters.
    cbn [data start_date_entry end_date_entry active_filters].
    rewrite (filtered_frame_bad_pattern _ _ _ _ Hd Hp). reflexivity. }
  rewrite E. cbn [fst snd].
  split; [reflexivity|]. split; [reflexivity|]. split; [reflexivity|].
  split; [reflexivity|]. intros s e. unfold apply_all_filters. simpl.
  rewrite (filtered_frame_bad_pattern _ _ _ _ Hd Hp). reflexivity.
Qed.

End CommandFacts.

Lemma delete_list_remove (l : list (string * string)) : forall idx x,
  l !! idx = Some x -> Permutation (delete idx l) (list_remove x l).
Proof.
  induction l as [|y rest IH]; intros idx x H; [discriminate|].
  destruct idx as [|i]; simpl in *.
  - inversion H; subst. rewrite filter_eqb_refl. reflexivity.
  - destruct (filter_eqb x y) eqn:E.
    + apply filter_eqb_eq in E. subst y.
      symmetry. apply delete_Permutation. assumption.
    + constructor. apply IH. assumption.
Qed.

Lemma existsb_filter_eqb x (l : list (string * string)) :
  In x l -> existsb (filter_eqb x) l = true.
Proof.
  intros H. apply existsb_exists. exists x.
  split; [assumption | apply filter_eqb_refl].
Qed.

Section MoreCommandFacts.

Context `{Lib : Library}.

Lemma apply_all_filters_Permutation app filters filters' :
  Permutation filters filters' ->
  snd (apply_all_filters (with_filters filters app))
  = snd (apply_all_filters (with_filters filters' app))
  /\ filtered_data (fst (apply_all_filters (with_filters filters app)))
     = filtered_data (fst (apply_all_filters (with_filters filters' app))).
Proof.
  intros HP. unfold apply_all_filters. simpl.
  rewrite (filtered_frame_Permutation _ _ _ _ _ HP).
  destruct (filtered_frame _ _ _ filters') as [[df m]|err]; simpl;
    split; reflexivity.
Qed.

(** The Remove button of the filter at position [idx] and
    [remove_filter] called with the tuple shown there give the same
    view and the same outcome, also when the tuple is in the list more
    than once. *)
Theorem remove_at_remove_filter idx column value app :
  active_filters app !! idx = Some (column, value) ->
  snd (remove_at idx app) = snd (remove_filter column value app)
  /\ filtered_data (fst (remove_at idx app))
     = filtered_data (fst (remove_filter column value app)).
Proof.
  intros H. unfold remove_at, remove_filter. rewrite H.
  rewrite existsb_filter_eqb
    by (apply list_elem_of_In, list_elem_of_lookup; eauto).
  apply apply_all_filters_Permutation. apply delete_list_remove. assumption.
Qed.

(** Adding a filter and removing it again gives back the view that
    reapplying the filters gave before, with the same messages, and
    the filter list up to order. *)
Theorem remove_filter_after_add column entry app app1 msgs :
  column <> "" ->
  strip entry <> "" ->
  add_dynamic_filter column entry app = (app1, Ok msgs) ->
  exists app2,
    remove_filter column (strip entry) app1 = (app2, Ok msgs)
    /\ filtered_data app2 = filtered_data (fst (apply_all_filters app))
    /\ snd (apply_all_filters app) = Ok msgs
    /\ Permutation (active_filters app2) (active_filters app)
    /\ data app2 = data app.
Proof.
  intros Hcol Hval H. unfold add_dynamic_filter in H.
  destruct (String.eqb_spec column ""); [contradiction|].
  destruct (String.eqb_spec (strip entry) ""); [contradiction|].
  cbn [orb] in H. apply apply_all_filters_Ok in H.
  destruct H as [H [Hd [Hf [Hs [He _]]]]]. simpl in H, Hd, Hf, Hs, He.
  destruct (filtered_frame_snoc _ _ _ _ _ _ _ _ H) as [df0 [H0 _]].
  pose proof (list_remove_appended (column, strip entry) (active_filters app))
    as HP.
  unfold remove_filter. rewrite Hf.
  rewrite existsb_filter_eqb by (apply in_or_app; right; left; reflexivity).
  unfold apply_all_filters. simpl. rewrite Hd, Hs, He.
  rewrite (filtered_frame_Permutation _ _ _ _ _ HP), H0.
  eexists. split; [reflexivity|]. simpl. repeat split; assumption.
Qed.

Lemma within_entry_empty within r : within_entry "" within r = true.
Proof. reflexivity. Qed.

(** Clearing a date bound never removes a row from the view: every row
    shown before is shown after. *)
Theorem clear_date_filter_grows app app0 m0 :
  apply_all_filters app = (app0, Ok m0) ->
  (forall app1 m1,
     clear_start_date_filter app0 = (app1, Ok m1) ->
     forall r, In r (rows (filtered_data app0)) ->
               In r (rows (filtered_data app1)))
  /\ (forall app1 m1,
        clear_end_date_filter app0 = (app1, Ok m1) ->
        forall r, In r (rows (filtered_data app0)) ->
                  In r (rows (filtered_data app1))).
Proof.
  intros H. pose proof (apply_all_filters_frame _ _ _ H) as V.
  apply apply_all_filters_Ok in H.
  destruct H as [_ [Hd [Hf [Hs [He _]]]]].
  split; intros app1 m1 H1 r Hr; apply apply_all_filters_frame in H1;
    rewrite H1; rewrite V in Hr; simpl in *; rewrite Hd, Hf, ?Hs, ?He;
    apply filter_In in Hr; destruct Hr as [Hin Hk]; apply filter_In;
    (split; [assumption|]); unfold kept in *;
    apply andb_true_iff in Hk; destruct Hk as [Hk Hp];
    apply andb_true_iff in Hk; destruct Hk as [Hk1 Hk2];
    rewrite Hp, ?Hk1, ?Hk2, strip_empty, within_entry_empty; reflexivity.
Qed.

Lemma date_range_frame_filtered base s e :
  strip s <> "" \/ strip e <> "" ->
  date_range_frame base s e = filtered_frame base s e [].
Proof.
  intros H. unfold date_range_frame, filtered_frame.
  assert (C : negb (String.eqb (strip s) "") || negb (String.eqb (strip e) "")
              = true).
  { destruct (String.eqb_spec (strip s) ""), (String.eqb_spec (strip e) "");
      simpl; try reflexivity. tauto. }
  rewrite C.
  destruct (map_column "ContentDate" coerce_datetime base) as [d0|err];
    simpl; [|reflexivity].
  destruct (date_bound (strip s) date_ge start_error d0) as [d1 m1].
  destruct (date_bound (strip e) date_le end_error d1) as [d2 m2].
  reflexivity.
Qed.

(** [apply_date_range] leaves the text filters out.  With a date entry
    filled in, its view and outcome are those of [apply_all_filters]
    with an empty filter list, whatever filters are listed; with both
    entries blank it shows the data as loaded, dates unparsed, and does
    not raise even when nothing is loaded. *)
Theorem apply_date_range_view app :
  (strip (start_date_entry app) <> "" \/ strip (end_date_entry app) <> "" ->
   snd (apply_date_range app) = snd (apply_all_filters (with_filters [] app))
   /\ filtered_data (fst (apply_date_range app))
      = filtered_data (fst (apply_all_filters (with_filters [] app))))
  /\ (strip (start_date_entry app) = "" ->
      strip (end_date_entry app) = "" ->
      snd (apply_date_range app) = Ok []
      /\ filtered_data (fst (apply_date_range app)) = data app
      /\ tree (fst (apply_date_range app)) = rendered_frame (data app)
      /\ active_filters (fst (apply_date_range app)) = active_filters app).
Proof.
  split.
  - intros H. unfold apply_date_range, apply_all_filters. simpl.
    rewrite (date_range_frame_filtered _ _ _ H).
    destruct (filtered_frame _ _ _ []) as [[df m]|err]; simpl;
      split; reflexivity.
  - intros Hs He. unfold apply_date_range, date_range_frame.
    rewrite Hs, He. simpl. repeat split.
Qed.

(** Loading a folder shows every record of the new collection, with the
    canonical columns: the filters and date entries of the state stay
    as they are but are not applied; and clearing the filters then
    succeeds and shows every record with its date parsed. *)
Theorem select_folder_shows_all files app app' :
  select_folder files app = (app', Ok tt) ->
  load_dicom_data files = Ok (data app')
  /\ columns (data app') = column_order
  /\ filtered_data app' = data app'
  /\ tree app' = rendered_frame (data app')
  /\ active_filters app' = active_filters app
  /\ start_date_entry app' = start_date_entry app
  /\ end_date_entry app' = end_date_entry app
  /\ exists app'',
       clear_all_filters app' = (app'', Ok [])
       /\ rows (filtered_data app'') = map with_date (rows (data app')).
Proof.
  unfold select_folder. destruct (load_dicom_data files) as [df|e] eqn:E;
    intros H; inversion H; subst; clear H. simpl.
  assert (C : columns df = column_order).
  { unfold load_dicom_data in E. bind_inv E. inversion E; reflexivity. }
  repeat split; try assumption.
  unfold clear_all_filters, apply_all_filters, filtered_frame. simpl.
  rewrite map_column_date by (rewrite C; reflexivity). simpl.
  eexists. split; reflexivity.
Qed.

End MoreCommandFacts.

Lemma apply_all_filters_bad_bound_witness :
  In start_error [start_error]
  /\ filtered_data (fst (apply_all_filters dashed_app))
     = filtered_data
         (fst (apply_all_filters
                 (with_entries "" (end_date_entry dashed_app) dashed_app))).
Proof.
  refine (proj1 (apply_all_filters_bad_bound dashed_app
                   (fst (apply_all_filters dashed_app)) [start_error] _)
                _ _).
  - apply pair_snd. vm_compute. reflexivity.
  - vm_compute. discriminate.
  - vm_compute. reflexivity.
Defined.

Lemma apply_all_filters_one_more_witness :
  exists app1,
    apply_all_filters (with_filters [("StationName", "halo")] sample_app)
    = (app1, Ok [])
    /\ rows (filtered_data
               (fst (apply_all_filters
                       (with_filters
                          ([("StationName", "halo")] ++ [("PatientID", "p1")])
                          sample_app))))
       = List.filter
           (fun r => negb (mem "PatientID" (columns (data sample_app)))
                     || contains "PatientID" "p1" r)
           (rows (filtered_data app1))
    /\ forall r,
         In r (rows (filtered_data
                       (fst (apply_all_filters
                               (with_filters
                                  ([("StationName", "halo")]
                                   ++ [("PatientID", "p1")])
                                  sample_app))))) ->
         In r (rows (filtered_data app1)).
Proof.
  refine (apply_all_filters_one_more sample_app [("StationName", "halo")]
            "PatientID" "p1" _ [] _).
  apply pair_snd. vm_compute. reflexivity.
Defined.

Lemma add_dynamic_filter_bad_pattern_witness :
  snd (add_dynamic_filter "StationName" " ( " sample_app) = Raise ReError.
Proof.
  refine (proj1 (add_dynamic_filter_bad_pattern "StationName" " ( "
                   sample_app _ _ _ _ _)).
  - vm_compute. reflexivity.
  - vm_compute. reflexivity.
  - discriminate.
  - vm_compute. discriminate.
  - vm_compute. reflexivity.
Defined.

Lemma remove_at_remove_filter_witness :
  snd (remove_at 0
         (with_filters [("StationName", "halo"); ("PatientID", "p");
                        ("StationName", "halo")] sample_app))
  = snd (remove_filter "StationName" "halo"
           (with_filters [("StationName", "halo"); ("PatientID", "p");
                          ("StationName", "halo")] sample_app)).
Proof.
  refine (proj1 (remove_at_remove_filter 0 "StationName" "halo"
                   (with_filters [("StationName", "halo"); ("PatientID", "p");
                                  ("StationName", "halo")] sample_app)
                   eq_refl)).
Defined.

Lemma remove_filter_after_add_witness :
  exists app2,
    remove_filter "PatientID" (strip " p1 ")
                  (fst (add_dynamic_filter "PatientID" " p1 " sample_app))
    = (app2, Ok [])
    /\ filtered_data app2 = filtered_data (fst (apply_all_filters sample_app))
    /\ snd (apply_all_filters sample_app) = Ok []
    /\ Permutation (active_filters app2) (active_filters sample_app)
    /\ data app2 = data sample_app.
Proof.
  refine (remove_filter_after_add "PatientID" " p1 " sample_app
            (fst (add_dynamic_filter "PatientID" " p1 " sample_app)) []
            _ _ _).
  - discriminate.
  - vm_compute. discriminate.
  - apply pair_snd. vm_compute. reflexivity.
Defined.

Lemma clear_date_filter_grows_witness :
  In (with_date (reindex_row column_order (record_of "20240101" "P1" "HALO")))
     (rows (filtered_data
              (fst (clear_start_date_filter
                      (fst (apply_all_filters bounded_app)))))).
Proof.
  refine (proj1 (clear_date_filter_grows bounded_app
                   (fst (apply_all_filters bounded_app)) [] _)
                (fst (clear_start_date_filter
                        (fst (apply_all_filters bounded_app)))) [] _ _ _).
  - apply pair_snd. vm_compute. reflexivity.
  - apply pair_snd. vm_compute. reflexivity.
  - rewrite (apply_all_filters_frame bounded_app
               (fst (apply_all_filters bounded_app)) [])
      by (apply pair_snd; vm_compute; reflexivity).
    apply filter_In. split.
    + apply in_map. left. reflexivity.
    + vm_compute. reflexivity.
Defined.

Lemma apply_date_range_view_witness :
  (snd (apply_date_range bounded_app)
   = snd (apply_all_filters (with_filters [] bounded_app))
   /\ filtered_data (fst (apply_date_range bounded_app))
      = filtered_data (fst (apply_all_filters (with_filters [] bounded_app))))
  /\ filtered_data (fst (apply_date_range sample_app)) = data sample_app.
Proof.
  split.
  - refine (proj1 (apply_date_range_view bounded_app) _).
    left. vm_compute. discriminate.
  - refine (proj1 (proj2 (proj2 (apply_date_range_view sample_app)
                            eq_refl eq_refl))).
Defined.

Lemma select_folder_shows_all_witness :
  columns (data (fst (select_folder sample_files bounded_app))) = column_order
  /\ active_filters (fst (select_folder sample_files bounded_app))
     = active_filters bounded_app.
Proof.
  destruct (select_folder_shows_all sample_files bounded_app
              (fst (select_folder sample_files bounded_app)))
    as [_ [C [_ [_ [F _]]]]].
  - apply pair_snd. vm_compute. reflexivity.
  - split; [exact C | exact F].
Defined.

(** After a load the rows without the halo station are shown although
    the filter on StationName is still listed; [apply_date_range] with
    a bound shows a row the listed filter rejects. *)
Example filters_not_applied :
  map (fun r => cell r "PatientID")
      (rows (filtered_data (fst (select_folder sample_files bounded_app))))
  = [VStr "P1"; VFloat Nan]
  /\ map (fun r => cell r "PatientID")
         (rows (filtered_data (fst (apply_date_range bounded_app))))
     = [VStr "P1"; VStr "P3"].
Proof. split; vm_compute; reflexivity. Qed.

(** ** Sorting, continued *)

Lemma float_ltb_asym a b : float_ltb a b = true -> float_ltb b a = false.
Proof.
  destruct a as [x| | |], b as [y| | |]; simpl; try discriminate;
    try reflexivity.
  intros H. apply negb_true_iff in H. apply negb_false_iff.
  apply Qle_bool_iff. destruct (Qlt_le_dec y x) as [Hlt|Hle].
  - apply Qlt_le_weak in Hlt. apply Qle_bool_iff in Hlt.
    rewrite Hlt in H. discriminate.
  - assumption.
Qed.

Lemma str_ltb_asym a b : str_ltb a b = true -> str_ltb b a = false.
Proof.
  unfold str_ltb. rewrite (String.compare_antisym a b).
  destruct (String.compare b a); simpl; congruence.
Qed.

Lemma ts_ltb_asym a b : ts_ltb a b = true -> ts_ltb b a = false.
Proof.
  unfold ts_ltb. intros H. apply orb_true_iff in H.
  apply orb_false_iff. destruct H as [H|H].
  - apply Z.ltb_lt in H. split.
    + apply Z.ltb_ge. lia.
    + apply andb_false_iff. left. apply Z.eqb_neq. lia.
  - apply andb_true_iff in H. destruct H as [H1 H2].
    apply Z.eqb_eq in H1. apply Z.ltb_lt in H2. split.
    + apply Z.ltb_ge. lia.
    + apply andb_false_iff. right. apply Z.ltb_ge. lia.
Qed.

Lemma py_lt_asym a b : py_lt a b = Ok true -> py_lt b a = Ok false.
Proof.
  destruct a, b; cbn [py_lt]; intros H; try discriminate;
    inversion H as [H1]; f_equal;
    first [ apply float_ltb_asym; assumption
          | apply str_ltb_asym; assumption
          | apply ts_ltb_asym; assumption
          | apply Z.ltb_ge; apply Z.ltb_lt in H1; lia ].
Qed.

Lemma py_lt_same_class a b :
  key_class a = key_class b -> key_class a <> 0%nat ->
  exists r, py_lt a b = Ok r.
Proof.
  destruct a, b; simpl; intros H1 H2; try discriminate; try congruence;
    eauto.
Qed.

Lemma chain_app_single {A} (R : A -> A -> Prop) l a :
  chain R l -> (forall z, last l = Some z -> R z a) -> chain R (l ++ [a]).
Proof.
  induction l as [|x [|y tl] IH]; simpl; intros Hc Hl.
  - exact I.
  - split; [apply Hl; reflexivity | exact I].
  - destruct Hc as [Hxy Hc]. split; [assumption|].
    apply IH; [assumption|]. intros z Hz. apply Hl. exact Hz.
Qed.

Lemma chain_rev {A} (R : A -> A -> Prop) l :
  chain R l -> chain (fun a b => R b a) (rev l).
Proof.
  induction l as [|x tl IH]; simpl; intros Hc; [exact I|].
  apply chain_app_single.
  - apply IH. destruct tl; [exact I | tauto].
  - intros z Hz. destruct tl as [|y tl']; [discriminate|].
    simpl in Hz. rewrite last_app in Hz. simpl in Hz. inversion Hz; subst.
    tauto.
Qed.

Lemma chain_map {A B} (f : A -> B) (R : B -> B -> Prop) l :
  chain (fun a b => R (f a) (f b)) l -> chain R (map f l).
Proof.
  induction l as [|x [|y tl] IH]; simpl; intros Hc; try exact I.
  destruct Hc as [Hxy Hc]. split; [assumption | apply IH; assumption].
Qed.

Section SortOrder.

Context {A : Type}.

Implicit Types (x : value * A) (l acc : list (value * A)).

Lemma insert_sorted_Permutation x l l' :
  insert_sorted x l = Ok l' -> Permutation l' (x :: l).
Proof.
  revert l'. induction l as [|y rest IH]; simpl; intros l' H.
  - inversion H; subst. reflexivity.
  - bind_inv H. destruct a.
    + inversion H; subst. reflexivity.
    + bind_inv H. inversion H; subst.
      rewrite (IH _ Ha0). apply perm_swap.
Qed.

Lemma insert_sorted_head_cases x l l' :
  insert_sorted x l = Ok l' ->
  (exists tl, l' = x :: tl)
  \/ (exists z tl tl', l = z :: tl /\ l' = z :: tl'
                       /\ py_lt (fst x) (fst z) = Ok false).
Proof.
  destruct l as [|y rest]; simpl; intros H.
  - inversion H; subst. left. eauto.
  - bind_inv H. destruct a.
    + inversion H; subst. left. eauto.
    + bind_inv H. inversion H; subst. right. eauto 10.
Qed.

Lemma insert_sorted_ordered x l l' :
  chain (fun a b => not_before (fst a) (fst b)) l -> insert_sorted x l = Ok l' -> chain (fun a b => not_before (fst a) (fst b)) l'.
Proof.
  unfold not_before.
  revert l'. induction l as [|y rest IH]; intros l' Hc H.
  - simpl in H. inversion H; subst. exact I.
  - pose proof H as H0. simpl in H. bind_inv H. destruct a.
    + inversion H; subst. split; [apply py_lt_asym; assumption | exact Hc].
    + bind_inv H. inversion H; subst. rename a into rest'.
      assert (Hrest : chain (fun a b => py_lt (fst b) (fst a) = Ok false) rest)
        by (destruct rest; [exact I | simpl in Hc; tauto]).
      specialize (IH _ Hrest Ha0).
      destruct (insert_sorted_head_cases _ _ _ Ha0)
        as [[tl ->]|[z [tl [tl' [-> [-> _]]]]]].
      * split; assumption.
      * split; [|assumption]. simpl in Hc. tauto.
Qed.

Lemma sort_from_Permutation l : forall acc out,
  sort_from acc l = Ok out -> Permutation out (acc ++ l).
Proof.
  induction l as [|x rest IH]; intros acc out H; simpl in H.
  - inversion H; subst. rewrite app_nil_r. reflexivity.
  - bind_inv H. rewrite (IH _ _ H).
    rewrite (insert_sorted_Permutation _ _ _ Ha).
    apply Permutation_middle.
Qed.

Lemma sort_from_ordered l : forall acc out,
  chain (fun a b => not_before (fst a) (fst b)) acc -> sort_from acc l = Ok out -> chain (fun a b => not_before (fst a) (fst b)) out.
Proof.
  induction l as [|x rest IH]; intros acc out Hc H; simpl in H.
  - inversion H; subst. assumption.
  - bind_inv H. eapply IH; [|eassumption].
    eapply insert_sorted_ordered; eassumption.
Qed.

Lemma list_sort_Permutation reverse l out :
  list_sort reverse l = Ok out -> Permutation out l.
Proof.
  unfold list_sort. destruct reverse; intros H.
  - bind_inv H. inversion H; subst.
    apply sort_from_Permutation in Ha. simpl in Ha.
    rewrite <- Permutation_rev, Ha, <- Permutation_rev. reflexivity.
  - apply sort_from_Permutation in H. exact H.
Qed.

Lemma list_sort_ordered reverse l out :
  list_sort reverse l = Ok out ->
  if reverse
  then chain (fun a b => not_before (fst b) (fst a)) out
  else chain (fun a b => not_before (fst a) (fst b)) out.
Proof.
  unfold list_sort. destruct reverse; intros H.
  - bind_inv H. inversion H; subst.
    apply (chain_rev (fun a b => not_before (fst a) (fst b))).
    eapply sort_from_ordered; [|eassumption]. exact I.
  - eapply sort_from_ordered; [|eassumption]. exact I.
Qed.

Lemma insert_sorted_uniform x l c :
  key_class (fst x) = c -> c <> 0%nat ->
  (forall z, In z l -> key_class (fst z) = c) ->
  exists l', insert_sorted x l = Ok l'.
Proof.
  intros Hx Hc. induction l as [|y rest IH]; intros Hl; simpl; [eauto|].
  destruct (py_lt_same_class (fst x) (fst y)) as [b Hb].
  - rewrite Hx. symmetry. apply Hl. left. reflexivity.
  - congruence.
  - rewrite Hb. simpl. destruct b; [eauto|].
    destruct IH as [l' Hl']; [intros z Hz; apply Hl; right; assumption|].
    rewrite Hl'. simpl. eauto.
Qed.

Lemma sort_from_uniform_Ok l c : forall acc,
  c <> 0%nat ->
  (forall z, In z acc -> key_class (fst z) = c) ->
  (forall z, In z l -> key_class (fst z) = c) ->
  exists out, sort_from acc l = Ok out.
Proof.
  induction l as [|x rest IH]; intros acc Hc Hacc Hl; simpl; [eauto|].
  destruct (insert_sorted_uniform x acc c) as [acc' Ha]; auto.
  { apply Hl. left. reflexivity. }
  rewrite Ha. simpl. apply IH; auto.
  - intros z Hz. apply (insert_sorted_In _ _ _ Ha) in Hz.
    destruct Hz as [->|Hz]; [apply Hl; left; reflexivity | auto].
  - intros z Hz. apply Hl. right. assumption.
Qed.

Lemma list_sort_uniform_Ok reverse l c :
  c <> 0%nat ->
  (forall z, In z l -> key_class (fst z) = c) ->
  exists out, list_sort reverse l = Ok out.
Proof.
  intros Hc Hl. unfold list_sort. destruct reverse.
  - destruct (sort_from_uniform_Ok (rev l) c []) as [out Ho]; auto.
    + intros z [].
    + intros z Hz. apply Hl. apply in_rev. assumption.
    + rewrite Ho. simpl. eauto.
  - apply (sort_from_uniform_Ok l c []); auto. intros z [].
Qed.

End SortOrder.

Lemma chain_impl_In {A} (R R' : A -> A -> Prop) l :
  (forall a b, In a l -> In b l -> R a b -> R' a b) ->
  chain R l -> chain R' l.
Proof.
  induction l as [|x [|y tl] IH]; simpl; intros Himp Hc; try exact I.
  destruct Hc as [Hxy Hc]. split.
  - apply Himp; simpl; auto.
  - apply IH; [|assumption]. intros a b Ha Hb. apply Himp; simpl; auto.
Qed.

Section SortColumnFacts.

Context `{Lib : Library}.

Lemma keyed_rows col (l : list dict) :
  map snd (map (fun t => (try_sort (fst t), snd t))
               (map (fun k => (cell k col, k)) l)) = l.
Proof.
  induction l as [|r l IH]; simpl; [reflexivity | f_equal; exact IH].
Qed.

Lemma keyed_keys col (l : list dict) z :
  In z (map (fun t => (try_sort (fst t), snd t))
            (map (fun k => (cell k col, k)) l)) ->
  fst z = try_sort (cell (snd z) col).
Proof.
  rewrite map_map. simpl. intros H. apply in_map_iff in H.
  destruct H as [r [<- _]]. reflexivity.
Qed.

(** A sort that returns keeps the columns and every row: the rows of
    the table afterwards are those before, in another order; and the
    next click on the heading asks for the opposite direction. *)
Theorem sort_column_permutation col reverse tv tv' next :
  sort_column col reverse tv = Ok (tv', next) ->
  columns tv' = columns tv
  /\ Permutation (rows tv') (rows tv)
  /\ next = negb reverse.
Proof.
  unfold sort_column. destruct (mem col (columns tv)); [|discriminate].
  intros H. bind_inv H. inversion H; subst; clear H. simpl.
  split; [reflexivity|]. split; [|reflexivity].
  apply list_sort_Permutation in Ha.
  rewrite Ha, keyed_rows. reflexivity.
Qed.

(** After an ascending sort no row is followed by a row whose key is
    smaller; after a descending sort no row is followed by a row whose
    key is greater.  The key of a row is [try_sort] of its cell. *)
Theorem sort_column_ordered col reverse tv tv' next :
  sort_column col reverse tv = Ok (tv', next) ->
  chain (fun r1 r2 =>
           if reverse
           then not_before (try_sort (cell r2 col)) (try_sort (cell r1 col))
           else not_before (try_sort (cell r1 col)) (try_sort (cell r2 col)))
        (rows tv').
Proof.
  unfold sort_column. destruct (mem col (columns tv)); [|discriminate].
  intros H. bind_inv H. inversion H; subst; clear H. simpl.
  rename a into sorted.
  pose proof (list_sort_Permutation _ _ _ Ha) as HP.
  pose proof (list_sort_ordered _ _ _ Ha) as HO.
  assert (K : forall z, In z sorted -> fst z = try_sort (cell (snd z) col)).
  { intros z Hz. apply (keyed_keys col (rows tv)).
    eapply Permutation_in; eassumption. }
  apply chain_map. destruct reverse.
  - eapply chain_impl_In; [|exact HO]. simpl. intros a b Hin Hb Hab.
    rewrite <- (K a Hin), <- (K b Hb). exact Hab.
  - eapply chain_impl_In; [|exact HO]. simpl. intros a b Hin Hb Hab.
    rewrite <- (K a Hin), <- (K b Hb). exact Hab.
Qed.

(** A column of the table whose cells are all read by [float], or are
    all texts that [float] does not read, is sorted without an
    exception, in either direction. *)
Theorem sort_column_uniform col reverse tv :
  mem col (columns tv) = true ->
  (forall r, In r (rows tv) -> exists f, float (cell r col) = Some f)
  \/ (forall r, In r (rows tv) ->
        exists s, cell r col = VStr s /\ float (VStr s) = None) ->
  exists tv', sort_column col reverse tv = Ok (tv', negb reverse).
Proof.
  intros Hc Hu. unfold sort_column. rewrite Hc.
  assert (U : exists c, c <> 0%nat /\
              forall z, In z (map (fun t => (try_sort (fst t), snd t))
                                  (map (fun k => (cell k col, k)) (rows tv))) ->
                        key_class (fst z) = c).
  { destruct Hu as [Hu|Hu].
    - exists 1%nat. split; [discriminate|]. intros z Hz.
      rewrite map_map in Hz. apply in_map_iff in Hz.
      destruct Hz as [r [<- Hr]]. simpl.
      destruct (Hu r Hr) as [f Hf]. unfold try_sort. rewrite Hf. reflexivity.
    - exists 2%nat. split; [discriminate|]. intros z Hz.
      rewrite map_map in Hz. apply in_map_iff in Hz.
      destruct Hz as [r [<- Hr]]. simpl.
      destruct (Hu r Hr) as [s [Hs Hf]]. unfold try_sort.
      rewrite Hs, Hf. reflexivity. }
  destruct U as [c [Hc0 U]].
  destruct (list_sort_uniform_Ok reverse _ c Hc0 U) as [out Ho].
  rewrite Ho. simpl. eauto.
Qed.

End SortColumnFacts.

Lemma sort_column_permutation_witness :
  Permutation (rows (fst (value_or (empty_frame, false)
                                   (sort_column "KVP" true kvp_tree))))
              (rows kvp_tree).
Proof.
  refine (proj1 (proj2 (sort_column_permutation "KVP" true kvp_tree
                          (fst (value_or (empty_frame, false)
                                         (sort_column "KVP" true kvp_tree)))
                          (snd (value_or (empty_frame, false)
                                         (sort_column "KVP" true kvp_tree)))
                          _))).
  rewrite <- surjective_pairing. apply Ok_value_or. vm_compute. reflexivity.
Defined.

Lemma sort_column_ordered_witness :
  chain (fun r1 r2 =>
           not_before (try_sort (cell r1 "KVP")) (try_sort (cell r2 "KVP")))
        (rows (fst (value_or (empty_frame, false)
                             (sort_column "KVP" false kvp_tree)))).
Proof.
  refine (sort_column_ordered "KVP" false kvp_tree
            (fst (value_or (empty_frame, false)
                           (sort_column "KVP" false kvp_tree)))
            (snd (value_or (empty_frame, false)
                           (sort_column "KVP" false kvp_tree)))
            _).
  rewrite <- surjective_pairing. apply Ok_value_or. vm_compute. reflexivity.
Defined.

Lemma sort_column_uniform_witness :
  exists tv', sort_column "KVP" true kvp_tree = Ok (tv', negb true).
Proof.
  refine (sort_column_uniform "KVP" true kvp_tree eq_refl _).
  left. intros r Hr. simpl in Hr.
  destruct Hr as [<-|[<-|[<-|[]]]]; eexists; vm_compute; reflexivity.
Defined.

(** ** Summary statistics, continued *)

Section StatisticsFacts.

Context `{Lib : Library}.

(** When the table has rows and numeric columns but every numeric
    column is one of the excluded ones, [describe()] is called on a
    frame without columns and the method ends with ValueError, not with
    the message about missing numeric data; as soon as one numeric
    column is not excluded, the table is shown and has a row for it. *)
Theorem show_summary_stats_all_excluded tv :
  rows tv <> [] ->
  numeric_columns tv <> [] ->
  ((forall c, In c (numeric_columns tv) -> In c excluded_variables) ->
   show_summary_stats tv = StatsRaise ValueError)
  /\ (forall c, In c (numeric_columns tv) -> ~ In c excluded_variables ->
        exists stats,
          show_summary_stats tv = StatsTable stats
          /\ In c (map variable stats)).
Proof.
  intros Hr Hn. unfold show_summary_stats.
  destruct (rows tv) as [|r0 rest]; [contradiction|].
  destruct (numeric_columns tv) as [|c0 cs] eqn:E; [contradiction|].
  split.
  - intros Hall.
    destruct (List.filter _ (c0 :: cs)) as [|k ks] eqn:F; [reflexivity|].
    exfalso. assert (Hk : In k (List.filter
                                  (fun c => negb (mem c excluded_variables))
                                  (c0 :: cs)))
      by (rewrite F; left; reflexivity).
    apply filter_In in Hk. destruct Hk as [Hin Hk].
    apply Hall, mem_In in Hin. rewrite Hin in Hk. discriminate.
  - intros c Hc Hex.
    assert (Hk : In c (List.filter (fun c => negb (mem c excluded_variables))
                                   (c0 :: cs))).
    { apply filter_In. split; [assumption|].
      apply negb_true_iff, mem_false. assumption. }
    destruct (List.filter _ (c0 :: cs)) as [|k ks] eqn:F; [destruct Hk|].
    eexists. split; [reflexivity|].
    rewrite describe_variables. exact Hk.
Qed.

(** Each row of the statistics table counts the cells of its column
    that are numbers: at least one, at most as many as the table has
    rows, none of them NaN. *)
Theorem show_summary_stats_counts tv stats row :
  show_summary_stats tv = StatsTable stats ->
  In row stats ->
  observations row
  = List.filter notna (numeric_column tv (variable row))
  /\ count row = length (observations row)
  /\ (1 <= count row <= length (rows tv))%nat
  /\ forall f, In f (observations row) -> f <> Nan.
Proof.
  intros H Hrow.
  assert (Hd : row = describe_column tv (variable row)
               /\ has_numeric tv (variable row) = true).
  { unfold show_summary_stats in H. destruct (rows tv); [discriminate|].
    destruct (numeric_columns tv) as [|c cs] eqn:E; [discriminate|].
    destruct (List.filter _ (c :: cs)) as [|k ks] eqn:F; [discriminate|].
    inversion H; subst; clear H.
    change (In row (map (describe_column tv) (k :: ks))) in Hrow.
    apply in_map_iff in Hrow.
    destruct Hrow as [col [<- Hcol]]. split; [reflexivity|]. simpl.
    rewrite <- F in Hcol. apply filter_In in Hcol. destruct Hcol as [Hcol _].
    rewrite <- E in Hcol. unfold numeric_columns in Hcol.
    apply filter_In in Hcol. tauto. }
  destruct Hd as [Hd Hnum]. rewrite Hd. simpl.
  split; [reflexivity|]. split; [reflexivity|]. split.
  - unfold has_numeric in Hnum. apply Nat.ltb_lt in Hnum. split; [lia|].
    etransitivity; [apply filter_length_le|].
    unfold numeric_column. rewrite length_map. reflexivity.
  - intros f Hf. apply filter_In in Hf. destruct Hf as [_ Hf].
    destruct f; simpl in Hf; congruence.
Qed.

End StatisticsFacts.

Lemma show_summary_stats_all_excluded_witness :
  show_summary_stats series_only_tree = StatsRaise ValueError.
Proof.
  refine (proj1 (show_summary_stats_all_excluded series_only_tree _ _) _).
  - discriminate.
  - vm_compute. discriminate.
  - intros c Hc. vm_compute in Hc. destruct Hc as [<-|[]].
    apply mem_In. reflexivity.
Defined.

Lemma show_summary_stats_counts_witness :
  (1 <= count {| variable := "KVP"; count := 2;
                 observations := [Finite (120 # 1); Finite (80 # 1)] |}
   <= length (rows series_tree))%nat.
Proof.
  refine (proj1 (proj2 (proj2 (show_summary_stats_counts series_tree
                                 [{| variable := "KVP"; count := 2;
                                     observations := [Finite (120 # 1);
                                                      Finite (80 # 1)] |}]
                                 _ _ _)))).
  - vm_compute. reflexivity.
  - left. reflexivity.
Defined.

(** ** Multiple exposures, continued *)

Lemma group_heads_not_seen l : forall seen h,
  In h (group_heads seen l) -> existsb (same_group h) seen = false.
Proof.
  induction l as [|x rest IH]; intros seen h; simpl; [tauto|].
  destruct (existsb (same_group x) seen) eqn:E.
  - apply IH.
  - intros [<-|H]; [assumption|].
    apply IH in H. simpl in H. apply orb_false_iff in H. tauto.
Qed.

Lemma seen_congr seen a b :
  same_group a b = true ->
  existsb (same_group a) seen = existsb (same_group b) seen.
Proof.
  intros H. induction seen as [|s seen IH]; simpl; [reflexivity|].
  rewrite (same_group_congr a b s H), IH. reflexivity.
Qed.

Lemma group_split x seen rest :
  existsb (same_group x) seen = false ->
  (length (List.filter (same_group x) rest)
   + length (List.filter
               (fun r => negb (same_group r x || existsb (same_group r) seen))
               rest))%nat
  = length (List.filter (fun r => negb (existsb (same_group r) seen)) rest).
Proof.
  intros E. induction rest as [|r rest IH]; simpl; [reflexivity|].
  rewrite (same_group_sym r x).
  destruct (same_group x r) eqn:Exr; simpl.
  - rewrite <- (seen_congr seen x r Exr), E. simpl. rewrite <- IH. lia.
  - destruct (existsb (same_group r) seen); simpl; rewrite <- IH; lia.
Qed.

(** The sizes of the groups of rows whose group was not seen before add
    up to the number of those rows. *)
Lemma group_heads_sum l : forall seen,
  (forall r, In r l -> complete r = true) ->
  list_sum (map (fun h => length (List.filter (same_group h) l))
                (group_heads seen l))
  = length (List.filter (fun r => negb (existsb (same_group r) seen)) l).
Proof.
  induction l as [|x rest IH]; intros seen Hall; simpl; [reflexivity|].
  assert (Hrest : forall r, In r rest -> complete r = true)
    by (intros r Hr; apply Hall; right; assumption).
  destruct (existsb (same_group x) seen) eqn:E; simpl.
  - rewrite <- (IH seen Hrest). f_equal. apply map_ext_in. intros h Hh.
    apply group_heads_not_seen in Hh.
    destruct (same_group h x) eqn:Ehx; [|reflexivity].
    rewrite (seen_congr seen h x Ehx) in Hh. congruence.
  - rewrite (same_group_refl x) by (apply Hall; left; reflexivity). simpl.
    f_equal.
    transitivity
      (length (List.filter (same_group x) rest)
       + list_sum (map (fun h => length (List.filter (same_group h) rest))
                       (group_heads (x :: seen) rest)))%nat.
    { f_equal. f_equal. apply map_ext_in. intros h Hh.
      apply group_heads_not_seen in Hh. simpl in Hh.
      apply orb_false_iff in Hh. destruct Hh as [Hh _]. rewrite Hh.
      reflexivity. }
    rewrite (IH (x :: seen) Hrest). cbn [existsb].
    apply group_split. assumption.
Qed.

Lemma filter_true {A} (l : list A) : List.filter (fun _ => true) l = l.
Proof. induction l as [|x l IH]; simpl; congruence. Qed.

Section ExposureFacts.

Context `{Lib : Library}.

(** The groups partition the rows that are grouped: every group has at
    least one row, and the sizes of the groups add up to the number of
    rows with a patient identifier and a date that parses. *)
Theorem exposure_counts_partition tv :
  list_sum (map snd (exposure_counts (prepared tv)))
  = length (rows (prepared tv))
  /\ forall e, In e (exposure_counts (prepared tv)) -> (1 <= snd e)%nat.
Proof.
  split.
  - unfold exposure_counts. rewrite map_map.
    change (list_sum
              (map (fun h => length (List.filter (same_group h)
                                                 (rows (prepared tv))))
                   (group_heads [] (rows (prepared tv))))
            = length (rows (prepared tv))).
    rewrite (group_heads_sum (rows (prepared tv)) [] (prepared_complete tv)).
    cbn [existsb negb]. rewrite filter_true. reflexivity.
  - unfold exposure_counts. intros e He. apply in_map_iff in He.
    destruct He as [h [<- Hh]]. cbn [snd]. apply group_heads_In in Hh.
    unfold group_size.
    assert (Hin : In h (List.filter (same_group h) (rows (prepared tv)))).
    { apply filter_In. split; [assumption|].
      apply same_group_refl. eapply prepared_complete. eassumption. }
    destruct (List.filter (same_group h) (rows (prepared tv)));
      [destruct Hin | simpl; lia].
Qed.

(** Each group of the summary is reported with the number of rows the
    summary lists for it, and that number is at least three. *)
Theorem show_multiple_exposures_table_counts tv lmd groups p d n :
  show_multiple_exposures_table tv = ExposuresShown lmd groups ->
  In (p, d, n) groups ->
  (3 <= n)%nat
  /\ n = length (List.filter
                   (fun r => value_eqb (cell r "PatientID") p
                             && value_eqb (cell r "ContentDate") d)
                   (rows lmd)).
Proof.
  unfold show_multiple_exposures_table.
  destruct (rows tv) as [|r0 rest] eqn:Er; [discriminate|].
  destruct (negb (mem "ContentDate" (columns tv))
            || negb (mem "PatientID" (columns tv))); [discriminate|].
  destruct (multi_exposures (prepared tv)) as [|e0 m] eqn:Em; [discriminate|].
  intros H He. inversion H; subst lmd groups; clear H.
  rewrite <- Em in He |- *.
  destruct (multi_exposures_In _ _ He) as [Hn [h [Hh Heq]]].
  cbn [snd] in Hn. inversion Heq; subst p d n; clear Heq.
  split; [assumption|]. unfold merge, select. cbn [rows].
  rewrite filter_filter. unfold group_size. f_equal. apply filter_ext.
  intros r.
  change (value_eqb (cell r "PatientID") (cell h "PatientID")
          && value_eqb (cell r "ContentDate") (cell h "ContentDate"))
    with (same_group r h).
  rewrite (same_group_sym h r).
  destruct (same_group r h) eqn:E; [|symmetry; apply andb_false_r].
  rewrite andb_true_r. symmetry. apply existsb_exists.
  exists (cell h "PatientID", cell h "ContentDate",
          group_size (rows (prepared tv)) h).
  split; [assumption | exact E].
Qed.

End ExposureFacts.

Lemma show_multiple_exposures_table_counts_witness :
  (3 <= 3)%nat
  /\ 3%nat
     = length (List.filter
                 (fun r => value_eqb (cell r "PatientID") (VStr "P1")
                           && value_eqb (cell r "ContentDate")
                                (VTimestamp {| ts_day := 20240101;
                                               ts_time := 0 |}))
                 (shown_rows (show_multiple_exposures_table exposures_tree))).
Proof.
  refine (show_multiple_exposures_table_counts exposures_tree
            (merge (prepared exposures_tree)
                   (multi_exposures (prepared exposures_tree)))
            (shown_groups (show_multiple_exposures_table exposures_tree))
            (VStr "P1") (VTimestamp {| ts_day := 20240101; ts_time := 0 |})
            3 _ _).
  - vm_compute. reflexivity.
  - vm_compute. left. reflexivity.
Defined.
